(** * KleinGordon: the Klein-Gordon demo script of shenfun

    A shallow embedding of [demo/KleinGordon.py].  The script is glue around
    the spectral library: the library's numerics (transforms, assembled
    operators, reductions) are the fields of the class [Library], the
    script's own configuration, array aliasing and control flow are
    definitions.  Arrays live in a store indexed by locations, so that views
    such as [f_hat, u_hat = fu_hat[:]] write through to the array they were
    taken from. *)

From stdpp Require Import gmap strings list pretty.
From Stdlib Require Import ZArith QArith.

Open Scope Z_scope.

(** ** Configuration data *)

(** A float constant of the configuration, kept as written: a decimal
    literal, or an integer multiple of [np.pi]. *)
Inductive const :=
| Lit (q : Q)
| PiMul (k : Z).

(** [Basis(N, family, dtype=..., domain=..., padding_factor=...)]; a keyword
    the call does not pass is [None]. *)
Record Basis := mkBasis {
  b_N : Z;
  b_family : string;
  b_dtype : string;
  b_domain : const * const;
  b_padding_factor : option Q
}.

(** [TensorProductSpace(comm, bases, slab=..., **kw)]. *)
Record TensorProductSpace := mkTPS {
  bases : list Basis;
  slab : bool;
  planner_effort : string;
  tps_threads : Z;
  collapse_fourier : bool
}.

(** [MixedTensorProductSpace(spaces)]. *)
Record MixedTensorProductSpace := mkMixed {
  spaces : list TensorProductSpace
}.

(** [VectorTensorProductSpace(T)]: one copy of [T] per dimension of [T]. *)
Definition VectorTensorProductSpace (T : TensorProductSpace)
  : MixedTensorProductSpace :=
  mkMixed (replicate (length (bases T)) T).

(** Lines 35-39. *)
Definition N : list Z := [32; 32; 32].
Definition gamma : Z := 1.
Definition threads : Z := 1.

(** [N[i]] for the indices the script uses; the tuple has three entries. *)
Definition N_at (i : nat) : Z := default 0 (N !! i).

Definition domain : const * const := (PiMul (-2), PiMul 2).

(** Lines 41-47. *)
Definition K0 : Basis := mkBasis (N_at 0) "F" "D" domain None.
Definition K1 : Basis := mkBasis (N_at 1) "F" "D" domain None.
Definition K2 : Basis := mkBasis (N_at 2) "F" "d" domain None.
Definition T : TensorProductSpace :=
  mkTPS [K0; K1; K2] true "FFTW_MEASURE" threads true.

(** Lines 49-50. *)
Definition TT : MixedTensorProductSpace := mkMixed [T; T].
Definition TV : MixedTensorProductSpace := VectorTensorProductSpace T.

(** Lines 52-58: the padded bases and the space built from them. *)
Definition Kp0 : Basis := mkBasis (N_at 0) "F" "D" domain (Some 1.5%Q).
Definition Kp1 : Basis := mkBasis (N_at 1) "F" "D" domain (Some 1.5%Q).
Definition Kp2 : Basis := mkBasis (N_at 2) "F" "D" domain (Some 1.5%Q).
Definition Tp_padded : TensorProductSpace :=
  mkTPS [Kp0; Kp1; Kp2] true "FFTW_MEASURE" threads true.

(** The module namespace for the name [Tp], statement by statement: line 55
    binds it to the padded space, line 61 ([Tp = T], under the comment
    "Turn on padding by commenting out:") binds it again.  A function body
    reads a global when it runs, so it sees the last binding. *)
Definition namespace_after_line_58 : gmap string TensorProductSpace :=
  <["Tp" := Tp_padded]> (<["T" := T]> ∅).
Definition namespace_after_line_61 : gmap string TensorProductSpace :=
  match namespace_after_line_58 !! "T" with
  | Some v => <["Tp" := v]> namespace_after_line_58
  | None => namespace_after_line_58
  end.
Definition Tp : TensorProductSpace :=
  default Tp_padded (namespace_after_line_61 !! "Tp").

(** ** The sympy expression of the initial condition *)

Inductive sym :=
| SymX | SymY | SymZ
| SymScale (c : Q) (e : sym)
| SymExp (e : sym)
| SymNeg (e : sym)
| SymAdd (a b : sym)
| SymPow (e : sym) (n : Z).

(** Line 31: [ue = 0.1*exp(-(x**2 + y**2 + z**2))]. *)
Definition ue : sym :=
  SymScale 0.1%Q
    (SymExp (SymNeg (SymAdd (SymAdd (SymPow SymX 2) (SymPow SymY 2))
                            (SymPow SymZ 2)))).

(** ** Weak forms *)

Inductive basis_function :=
| TrialFunction (V : TensorProductSpace)
| TestFunction (V : TensorProductSpace).

Inductive expr :=
| Fn (b : basis_function)
| grad (e : expr)
| Neg (e : expr)
| Times (c : Z) (e : expr).

(** Lines 81-82. *)
Definition uh : expr := Fn (TrialFunction T).
Definition vh : expr := Fn (TestFunction T).

(** ** Arrays *)

(** An array of fields: one field, or fields stacked along a leading axis. *)
Inductive nd (A : Type) :=
| Scalar (a : A)
| Stack (l : list A).
Arguments Scalar {A} a.
Arguments Stack {A} l.

Definition nd_map {A B} (f : A -> B) (x : nd A) : nd B :=
  match x with
  | Scalar a => Scalar (f a)
  | Stack l => Stack (f <$> l)
  end.

(** Number of stacked components, [None] for a single field. *)
Definition ncomp {A} (x : nd A) : option nat :=
  match x with
  | Scalar _ => None
  | Stack l => Some (length l)
  end.

Inductive exn :=
| ValueError
| ZeroDivisionError
| IndexError
| TypeError
| Dangling.

Inductive result (A : Type) :=
| Ok (a : A)
| Raise (e : exn).
Arguments Ok {A} a.
Arguments Raise {A} e.

(** Broadcasting of a binary operation along the leading axis: a single
    field against a stack is applied to every component, two stacks need
    equal length unless one of them has length one. *)
Definition nd_zip {A} (op : A -> A -> A) (x y : nd A) : result (nd A) :=
  match x, y with
  | Scalar a, Scalar b => Ok (Scalar (op a b))
  | Scalar a, Stack l => Ok (Stack (op a <$> l))
  | Stack l, Scalar b => Ok (Stack ((fun a => op a b) <$> l))
  | Stack [a], Stack l => Ok (Stack (op a <$> l))
  | Stack l, Stack [b] => Ok (Stack ((fun a => op a b) <$> l))
  | Stack l1, Stack l2 =>
      if decide (length l1 = length l2)
      then Ok (Stack (zip_with op l1 l2))
      else Raise ValueError
  end.

(** ** The library *)

(** What the script takes from shenfun, numpy and MPI.  [F] is the type of
    floats, [Phys] a local array in physical space, [Spec] one in spectral
    space; no law is assumed of any operation. *)
Class Library := {
  F : Type;
  fadd : F -> F -> F;
  fmul : F -> F -> F;
  fdiv : F -> F -> F;
  flit : Q -> F;
  fofZ : Z -> F;
  Phys : Type;
  pzero : Phys;
  padd : Phys -> Phys -> Phys;
  psub : Phys -> Phys -> Phys;
  pmul : Phys -> Phys -> Phys;
  ppow : Phys -> Z -> Phys;
  pscal : F -> Phys -> Phys;
  pneg : Phys -> Phys;
  pexp : Phys -> Phys;
  slice_last : Phys -> Z -> Phys;
  np_sum : nd Phys -> F;
  Spec : Type;
  szero : Spec;
  sadd : Spec -> Spec -> Spec;
  smul : Spec -> Spec -> Spec;
  sscal_j : Spec -> Spec;
  forward : TensorProductSpace -> Phys -> Spec;
  backward : TensorProductSpace -> Spec -> Phys;
  local_mesh : TensorProductSpace -> bool -> list Phys;
  local_wavenumbers : TensorProductSpace -> bool -> bool -> bool -> list Spec;
  energy_fourier : nd Spec -> TensorProductSpace -> F;
  allreduce : F -> F;
  Op : Type;
  inner : expr -> expr -> Op;
  op_sub : Op -> Op -> Op;
  op_apply : Op -> Spec -> Spec
}.

(** ** The store *)

Abbreviation loc := positive.

(** A reference to a field: a whole single-field array, or component [i] of
    a stacked array (what unpacking [a[:]] yields). *)
Inductive ref :=
| Whole (l : loc)
| Comp (l : loc) (i : nat).

Definition ref_loc (r : ref) : loc :=
  match r with Whole l => l | Comp l _ => l end.

(** Reading the field a reference points to. *)
Definition h_read {A} (h : gmap loc (nd A)) (r : ref) : result A :=
  match r with
  | Whole l =>
      match h !! l with
      | Some (Scalar a) => Ok a
      | Some (Stack _) => Raise ValueError
      | None => Raise Dangling
      end
  | Comp l i =>
      match h !! l with
      | Some (Stack ls) =>
          match ls !! i with Some a => Ok a | None => Raise IndexError end
      | Some (Scalar _) => Raise IndexError
      | None => Raise Dangling
      end
  end.

(** [r[...] = v]: the array keeps its shape; a field written to a whole
    stacked array is broadcast to each component. *)
Definition h_write {A} (h : gmap loc (nd A)) (r : ref) (v : A)
  : result (gmap loc (nd A)) :=
  match r with
  | Whole l =>
      match h !! l with
      | Some x => Ok (<[l := nd_map (fun _ => v) x]> h)
      | None => Raise Dangling
      end
  | Comp l i =>
      match h !! l with
      | Some (Stack ls) =>
          if decide (i < length ls)%nat
          then Ok (<[l := Stack (<[i := v]> ls)]> h)
          else Raise IndexError
      | Some (Scalar _) => Raise IndexError
      | None => Raise Dangling
      end
  end.

(** [a.fill(v)]. *)
Definition h_fill {A} (h : gmap loc (nd A)) (l : loc) (v : A)
  : result (gmap loc (nd A)) :=
  match h !! l with
  | Some x => Ok (<[l := nd_map (fun _ => v) x]> h)
  | None => Raise Dangling
  end.

(** [p, q = a[:]]: exactly two components, or [ValueError]. *)
Definition h_unpack2 {A} (h : gmap loc (nd A)) (l : loc)
  : result (ref * ref) :=
  match h !! l with
  | Some (Stack [_; _]) => Ok (Comp l 0, Comp l 1)
  | Some _ => Raise ValueError
  | None => Raise Dangling
  end.

(** The whole array at a location. *)
Definition h_get {A} (h : gmap loc (nd A)) (l : loc) : result (nd A) :=
  match h !! l with
  | Some x => Ok x
  | None => Raise Dangling
  end.

(** The arrays named in a dictionary handed to [HDF5File.write]: each entry
    is an array, with the index of the slice to take when one is given. *)
Inductive index :=
| SliceNone
| At (i : Z).

Definition Fields := list (string * list (loc * option (list index))).

Definition field_locs (fs : Fields) : list loc :=
  fs ≫= (fun kv => fst <$> snd kv).

(** [HDF5File(name, space, mode=...)]. *)
Record HDF5File := mkHDF5File {
  h5_name : string;
  h5_space : MixedTensorProductSpace;
  h5_mode : string
}.

(** The keyword parameters the integrator hands back to [update]. *)
Record Params := mkParams {
  write_slice_tstep : Z * Fields;
  write_tstep : Z * Fields;
  Compute_energy : Z;
  plot_tstep : Z;
  end_time : Q;
  file : HDF5File
}.

(** Python's [a % b] on integers: the sign follows the divisor, and a zero
    divisor raises. *)
Definition pymod (a b : Z) : result Z :=
  if decide (b = 0) then Raise ZeroDivisionError else Ok (a mod b).

(** The global arrays of the module, in the order lines 64-75 create
    them. *)
Definition fu : loc := 1%positive.
Definition up : loc := 2%positive.
Definition dfu : loc := 3%positive.
Definition fu_hat : loc := 4%positive.
Definition gradu : loc := 5%positive.

Section Script.
Context {lib : Library}.

(** What the script asks of the library, the display and the other
    processes, in order. *)
Inductive Event :=
| EvForward (V : TensorProductSpace)
| EvBackward (V : TensorProductSpace)
| EvFunctionBackward (src dst : loc)
| EvVectorBackward (V : MixedTensorProductSpace) (dst : loc)
| EvTimer
| EvFigure
| EvAxClear
| EvContourf (xs ys data : Phys) (levels : Z)
| EvDraw
| EvPause (secs : Q)
| EvFileWrite (tstep : Z) (fields : Fields) (as_scalar : bool)
              (data : list (nd Phys))
| EvAllreduce (x : F)
| EvPrint (t total ep ea : F)
| EvBarrier.

Record State := mkState {
  phys : gmap loc (nd Phys);
  spec : gmap loc (nd Spec);
  count : Z;
  trace : list Event
}.

(** State and exceptions. *)
Definition M (A : Type) : Type := State -> result (A * State).

Definition ret {A} (a : A) : M A := fun s => Ok (a, s).

Definition bind {A B} (m : M A) (k : A -> M B) : M B :=
  fun s => match m s with
           | Ok (a, s') => k a s'
           | Raise e => Raise e
           end.

#[global] Instance M_ret : MRet M := @ret.
#[global] Instance M_bind : MBind M := fun A B k m => bind m k.

Definition lift {A} (r : result A) : M A :=
  fun s => match r with Ok a => Ok (a, s) | Raise e => Raise e end.

Definition log (e : Event) : M unit :=
  fun s => Ok (tt, mkState (phys s) (spec s) (count s) (trace s ++ [e])).

Definition with_phys {A} (f : gmap loc (nd Phys) -> result A) : M A :=
  fun s => lift (f (phys s)) s.
Definition with_spec {A} (f : gmap loc (nd Spec) -> result A) : M A :=
  fun s => lift (f (spec s)) s.

Definition set_phys (f : gmap loc (nd Phys) -> result (gmap loc (nd Phys)))
  : M unit :=
  fun s => match f (phys s) with
           | Ok h => Ok (tt, mkState h (spec s) (count s) (trace s))
           | Raise e => Raise e
           end.
Definition set_spec (f : gmap loc (nd Spec) -> result (gmap loc (nd Spec)))
  : M unit :=
  fun s => match f (spec s) with
           | Ok h => Ok (tt, mkState (phys s) h (count s) (trace s))
           | Raise e => Raise e
           end.

Definition read_phys (r : ref) : M Phys := with_phys (fun h => h_read h r).
Definition read_spec (r : ref) : M Spec := with_spec (fun h => h_read h r).
Definition write_phys (r : ref) (v : Phys) : M unit :=
  set_phys (fun h => h_write h r v).
Definition write_spec (r : ref) (v : Spec) : M unit :=
  set_spec (fun h => h_write h r v).
Definition unpack2_phys (l : loc) : M (ref * ref) :=
  with_phys (fun h => h_unpack2 h l).
Definition unpack2_spec (l : loc) : M (ref * ref) :=
  with_spec (fun h => h_unpack2 h l).

(** [V.backward(input, output)] and [V.forward(input, output)] of a single
    space: the transform of the input is written into the output array,
    which is also what the call returns. *)
Definition space_backward (V : TensorProductSpace) (input output : ref)
  : M ref :=
  v ← read_spec input;
  log (EvBackward V) ;;
  write_phys output (backward V v) ;;
  ret output.

Definition space_forward (V : TensorProductSpace) (input : Phys)
                         (output : ref) : M ref :=
  log (EvForward V) ;;
  write_spec output (forward V input) ;;
  ret output.

(** [count += 1]. *)
Definition incr_count : M unit :=
  fun s => Ok (tt, mkState (phys s) (spec s) (count s + 1) (trace s)).

(** Line 84: [L = inner(grad(vh), -grad(uh)) - inner(vh, gamma*uh)]. *)
Definition L : Op :=
  op_sub (inner (grad vh) (Neg (grad uh))) (inner vh (Times gamma uh)).

(** Lines 89-99. *)
Definition NonlinearRHS (fu fu_hat dfu_hat : loc) : M loc :=
  incr_count ;;
  set_spec (fun h => h_fill h dfu_hat szero) ;;
  '(f_hat, u_hat) ← unpack2_spec fu_hat;
  '(df_hat, du_hat) ← unpack2_spec dfu_hat;
  up ← space_backward Tp u_hat (Whole up);
  upv ← read_phys up;
  df_hat ← space_forward Tp (pscal (fofZ gamma) (ppow upv 3)) df_hat;
  Lu ← read_spec u_hat;
  dfv ← read_spec df_hat;
  write_spec df_hat (sadd dfv (op_apply L Lu)) ;;
  fv ← read_spec f_hat;
  write_spec du_hat fv ;;
  ret dfu_hat.

(** ** Module initialisation *)

(** [Array(V)] and [Function(V)] are created filled with zeros: a single
    field over a tensor-product space, one field per component space over a
    mixed space. *)
Definition zeros_single {A} (z : A) (V : TensorProductSpace) : nd A :=
  Scalar z.
Definition zeros_mixed {A} (z : A) (V : MixedTensorProductSpace) : nd A :=
  Stack ((fun _ => z) <$> spaces V).

Definition new_phys (l : loc) (x : nd Phys) : M unit :=
  set_phys (fun h => Ok (<[l := x]> h)).
Definition new_spec (l : loc) (x : nd Spec) : M unit :=
  set_spec (fun h => Ok (<[l := x]> h)).

(** The numpy function [lambdify] builds from a sympy expression. *)
Fixpoint eval_sym (e : sym) (x y z : Phys) : Phys :=
  match e with
  | SymX => x
  | SymY => y
  | SymZ => z
  | SymScale c e => pscal (flit c) (eval_sym e x y z)
  | SymExp e => pexp (eval_sym e x y z)
  | SymNeg e => pneg (eval_sym e x y z)
  | SymAdd a b => padd (eval_sym a x y z) (eval_sym b x y z)
  | SymPow e n => ppow (eval_sym e x y z) n
  end.

(** [lambdify((x, y, z), e, 'numpy')]: a function of exactly three
    arguments. *)
Definition lambdify (e : sym) (args : list Phys) : result Phys :=
  match args with
  | [x; y; z] => Ok (eval_sym e x y z)
  | _ => Raise TypeError
  end.

(** Line 32. *)
Definition ul : list Phys -> result Phys := lambdify ue.

(** Lines 63 and 67. *)
Definition X : list Phys := local_mesh T true.
Definition K : nd Spec := Stack (local_wavenumbers T true true true).

(** [a[i]] on a Python list or tuple. *)
Definition item {A} (l : list A) (i : nat) : result A :=
  match l !! i with
  | Some a => Ok a
  | None => Raise IndexError
  end.

(** The rank of this process in [MPI.COMM_WORLD]. *)
Variable rank : Z.

(** Lines 63-105, from line 63 on: the arrays, the initial condition and,
    on rank 0, the first plot. *)
Definition module_init : M unit :=
  new_phys fu (zeros_mixed pzero TT) ;;
  '(f, u) ← unpack2_phys fu;
  new_phys up (zeros_single pzero Tp) ;;
  new_spec dfu (zeros_mixed szero TT) ;;
  '(df, du) ← unpack2_spec dfu;
  new_spec fu_hat (zeros_mixed szero TT) ;;
  '(f_hat, u_hat) ← unpack2_spec fu_hat;
  new_phys gradu (zeros_mixed pzero TV) ;;
  v ← lift (ul X);
  write_phys u v ;;
  uv ← read_phys u;
  u_hat ← space_forward T uv u_hat;
  if decide (rank = 0) then
    log EvFigure ;;
    x1 ← lift (item X 1);
    x0 ← lift (item X 0);
    uv ← read_phys u;
    log (EvContourf (slice_last x1 0) (slice_last x0 0)
                    (slice_last uv (N_at 2 `div` 2)) 100) ;;
    log EvDraw ;;
    log (EvPause 1e-4%Q)
  else ret tt.

Definition empty_state : State := mkState ∅ ∅ 0 [].

(** ** The update callback *)

(** The transform of a mixed space, as the library runs it: for each
    component space in turn, [output[i] = spaces[i].backward(input[i],
    output[i])]. *)
Fixpoint mixed_backward_loop (Vs : list TensorProductSpace) (i : nat)
    (ins : list Spec) (outs : list Phys) : result (list Phys) :=
  match Vs with
  | [] => Ok outs
  | V :: Vs' =>
      match ins !! i with
      | None => Raise IndexError
      | Some x =>
          if decide (i < length outs)%nat
          then mixed_backward_loop Vs' (S i) ins (<[i := backward V x]> outs)
          else Raise IndexError
      end
  end.

Definition mixed_backward_data (V : MixedTensorProductSpace)
    (input : nd Spec) (output : nd Phys) : result (nd Phys) :=
  match input, output with
  | Stack ins, Stack outs =>
      match mixed_backward_loop (spaces V) 0 ins outs with
      | Ok r => Ok (Stack r)
      | Raise e => Raise e
      end
  | _, _ => Raise ValueError
  end.

Definition mixed_backward (V : MixedTensorProductSpace) (input : nd Spec)
    (dst : loc) : M loc :=
  out ← with_phys (fun h => h_get h dst);
  r ← lift (mixed_backward_data V input out);
  set_phys (fun h => Ok (<[dst := r]> h)) ;;
  ret dst.

(** [src.backward(dst)] for a [Function] over [TT]: the transform of the
    function's own space, written into [dst], which the call returns. *)
Definition Function_backward (src dst : loc) : M loc :=
  input ← with_spec (fun h => h_get h src);
  log (EvFunctionBackward src dst) ;;
  mixed_backward TT input dst.

(** [TV.backward(input, dst)]. *)
Definition vector_backward (input : nd Spec) (dst : loc) : M loc :=
  log (EvVectorBackward TV dst) ;;
  mixed_backward TV input dst.

Fixpoint snapshot (h : gmap loc (nd Phys)) (ls : list loc)
  : result (list (nd Phys)) :=
  match ls with
  | [] => Ok []
  | l :: ls' =>
      match h_get h l, snapshot h ls' with
      | Ok x, Ok xs => Ok (x :: xs)
      | Raise e, _ => Raise e
      | _, Raise e => Raise e
      end
  end.

(** [file.write(tstep, fields, as_scalar=True)]: the arrays the dictionary
    names are written as they are at the time of the call. *)
Definition file_write (tstep : Z) (fields : Fields) : M unit :=
  data ← with_phys (fun h => snapshot h (field_locs fields));
  log (EvFileWrite tstep fields true data).

(** [comm.allreduce(x)]. *)
Definition comm_allreduce (x : F) : M F :=
  log (EvAllreduce x) ;;
  ret (allreduce x).

(** [np.prod(np.array(N))]. *)
Definition np_prod (l : list Z) : Z := foldr Z.mul 1 l.

(** [0.5*u**2 - 0.25*u**4]. *)
Definition potential (u : Phys) : Phys :=
  psub (pscal (flit 0.5%Q) (ppow u 2)) (pscal (flit 0.25%Q) (ppow u 4)).

(** [1j*K*u_hat]. *)
Definition jK_times (u_hat : Spec) : result (nd Spec) :=
  nd_zip smul (nd_map sscal_j K) (Scalar u_hat).

(** Lines 136-147, the body of the energy branch after the transform. *)
Definition energy_block (fu fu_hat : loc) (t : F) : M unit :=
  '(f, u) ← unpack2_phys fu;
  '(f_hat, u_hat) ← unpack2_spec fu_hat;
  fhv ← read_spec f_hat;
  let ekin := fmul (flit 0.5%Q) (energy_fourier (Scalar fhv) T) in
  uhv ← read_spec u_hat;
  jKu ← lift (jK_times uhv);
  let es := fmul (flit 0.5%Q) (energy_fourier jKu T) in
  uv ← read_phys u;
  let eg := fdiv (fmul (fofZ gamma) (np_sum (Scalar (potential uv))))
                 (fofZ (np_prod N)) in
  eg ← comm_allreduce eg;
  uhv ← read_spec u_hat;
  jKu ← lift (jK_times uhv);
  gradu ← vector_backward jKu gradu;
  fv ← read_phys f;
  g ← with_phys (fun h => h_get h gradu);
  fg ← lift (nd_zip pmul (Scalar fv) g);
  ep ← comm_allreduce (fdiv (np_sum fg) (fofZ (np_prod N)));
  fv ← read_phys f;
  g ← with_phys (fun h => h_get h gradu);
  uv ← read_phys u;
  s1 ← lift (nd_zip padd (Scalar (pscal (flit 0.5%Q) (ppow fv 2)))
                         (nd_map (fun c => pscal (flit 0.5%Q) (ppow c 2)) g));
  s2 ← lift (nd_zip psub s1 (Scalar (pmul (potential uv) fv)));
  s3 ← lift (nd_zip pmul (Stack X) s2);
  ea ← comm_allreduce (fdiv (np_sum s3) (fofZ (np_prod N)));
  (if decide (rank = 0)
   then log (EvPrint t (fadd (fadd ekin es) eg) ep ea)
   else ret tt) ;;
  log EvBarrier.

(** Line 113: [rank == 0 and tstep % p == 0 and p > 0], left to right. *)
Definition plot_due (tstep : Z) (params : Params) : M bool :=
  if decide (rank = 0) then
    m ← lift (pymod tstep (plot_tstep params));
    ret (bool_decide (m = 0) && bool_decide (plot_tstep params > 0))
  else ret false.

(** Lines 107-147.  [fu = fu_hat.backward(fu)] binds [fu] to the array the
    call returns, which is its output array. *)
Definition update (fu fu_hat : loc) (t : F) (tstep : Z) (params : Params)
  : M unit :=
  log EvTimer ;;
  let transformed := false in
  c ← plot_due tstep params;
  transformed ←
    (if c : bool then
       fu ← Function_backward fu_hat fu;
       '(f, u) ← unpack2_phys fu;
       log EvAxClear ;;
       x1 ← lift (item X 1);
       x0 ← lift (item X 0);
       uv ← read_phys u;
       log (EvContourf (slice_last x1 0) (slice_last x0 0)
                       (slice_last uv (N_at 2 `div` 2)) 100) ;;
       log (EvPause 1e-6%Q) ;;
       ret true
     else ret transformed);
  m ← lift (pymod tstep (write_slice_tstep params).1);
  transformed ←
    (if decide (m = 0) then
       transformed ←
         (if negb transformed
          then fu ← Function_backward fu_hat fu; ret true
          else ret transformed);
       file_write tstep (write_slice_tstep params).2 ;;
       ret transformed
     else ret transformed);
  m ← lift (pymod tstep (write_tstep params).1);
  transformed ←
    (if decide (m = 0) then
       transformed ←
         (if negb transformed
          then fu ← Function_backward fu_hat fu; ret true
          else ret transformed);
       file_write tstep (write_tstep params).2 ;;
       ret transformed
     else ret transformed);
  m ← lift (pymod tstep (Compute_energy params));
  if decide (m = 0) then
    (if negb transformed
     then fu ← Function_backward fu_hat fu; ret tt
     else ret tt) ;;
    energy_block fu fu_hat t
  else ret tt.

(** ** The main block *)

(** Line 150. *)
Definition file0 : HDF5File :=
  mkHDF5File ("KleinGordon" +:+ pretty (N_at 0) +:+ ".h5") TT "w".

(** Lines 151-157. *)
Definition par : Params := {|
  write_slice_tstep :=
    (10, [("fu", [(fu, Some [SliceNone; SliceNone; At 10; SliceNone]);
                  (fu, Some [SliceNone; At 10; SliceNone; SliceNone])])]);
  write_tstep := (50, [("fu", [(fu, None)])]);
  Compute_energy := 100;
  plot_tstep := 100;
  end_time := 100%Q;
  file := file0
|}.

(** Line 158. *)
Definition dt : Q := 0.005%Q.

(** The calls the main block makes, with their arguments. *)
Inductive Call :=
| NewHDF5File (f : HDF5File)
| NewETDRK4 (V : MixedTensorProductSpace)
            (N : loc -> loc -> loc -> M loc)
            (update : loc -> loc -> F -> Z -> Params -> M unit)
            (params : Params)
| Setup (dt : Q)
| WallClock
| Solve (u u_hat : loc) (dt : Q) (trange : Z * Q)
| TimerFinal (verbose : bool)
| GenerateXdmf (name : string).

(** Lines 149-167. *)
Definition main : list Call :=
  [ NewHDF5File file0;
    NewETDRK4 TT NonlinearRHS update par;
    Setup dt;
    WallClock;
    Solve fu fu_hat dt (0, end_time par);
    TimerFinal true ]
  ++ (if decide (rank = 0)
      then [GenerateXdmf ("KleinGordon" +:+ pretty (N_at 0) +:+ ".h5")]
      else []).

(** ** What a call of [update] does, written out *)

(** The conditions of lines 113, 121, 127 and 133. *)
Definition plot_now (tstep : Z) (params : Params) : bool :=
  bool_decide (rank = 0)
  && bool_decide (tstep mod plot_tstep params = 0)
  && bool_decide (plot_tstep params > 0).
Definition slice_now (tstep : Z) (params : Params) : bool :=
  bool_decide (tstep mod (write_slice_tstep params).1 = 0).
Definition checkpoint_now (tstep : Z) (params : Params) : bool :=
  bool_decide (tstep mod (write_tstep params).1 = 0).
Definition energy_now (tstep : Z) (params : Params) : bool :=
  bool_decide (tstep mod Compute_energy params = 0).
Definition any_now (tstep : Z) (params : Params) : bool :=
  plot_now tstep params || slice_now tstep params
  || checkpoint_now tstep params || energy_now tstep params.

(** The state array in physical space after [fu_hat.backward(fu)], for
    [fu_hat] holding [fh, uh]. *)
Definition transformed_fu (fh uh : Spec) : nd Phys :=
  Stack [backward T fh; backward T uh].

(** The values of the energy branch, for the spectral state [fh, uh], its
    transform [f, u], the wavenumber arrays [k0, k1, k2] and the mesh arrays
    [x0, x1, x2]. *)
Definition jKu (uh k0 k1 k2 : Spec) : list Spec :=
  [smul (sscal_j k0) uh; smul (sscal_j k1) uh; smul (sscal_j k2) uh].
Definition gradu_fields (uh k0 k1 k2 : Spec) : list Phys :=
  backward T <$> jKu uh k0 k1 k2.
Definition kinetic (fh : Spec) : F :=
  fmul (flit 0.5%Q) (energy_fourier (Scalar fh) T).
Definition strain (uh k0 k1 k2 : Spec) : F :=
  fmul (flit 0.5%Q) (energy_fourier (Stack (jKu uh k0 k1 k2)) T).
Definition potential_local (u : Phys) : F :=
  fdiv (fmul (fofZ gamma) (np_sum (Scalar (potential u)))) (fofZ (np_prod N)).
Definition linear_momentum_local (f : Phys) (uh k0 k1 k2 : Spec) : F :=
  fdiv (np_sum (Stack (pmul f <$> gradu_fields uh k0 k1 k2)))
       (fofZ (np_prod N)).
Definition angular_momentum_local (f u : Phys) (uh k0 k1 k2 : Spec)
    (x0 x1 x2 : Phys) : F :=
  fdiv (np_sum (Stack (zip_with pmul [x0; x1; x2]
          ((fun a => psub a (pmul (potential u) f)) <$>
           (padd (pscal (flit 0.5%Q) (ppow f 2)) <$>
            ((fun c => pscal (flit 0.5%Q) (ppow c 2)) <$>
             gradu_fields uh k0 k1 k2))))))
       (fofZ (np_prod N)).

Definition energy_events (t : F) (fh uh : Spec) (k0 k1 k2 : Spec)
    (x0 x1 x2 : Phys) : list Event :=
  let f := backward T fh in
  let u := backward T uh in
  [EvAllreduce (potential_local u);
   EvVectorBackward TV gradu;
   EvAllreduce (linear_momentum_local f uh k0 k1 k2);
   EvAllreduce (angular_momentum_local f u uh k0 k1 k2 x0 x1 x2)]
  ++ (if decide (rank = 0)
      then [EvPrint t
              (fadd (fadd (kinetic fh) (strain uh k0 k1 k2))
                    (allreduce (potential_local u)))
              (allreduce (linear_momentum_local f uh k0 k1 k2))
              (allreduce (angular_momentum_local f u uh k0 k1 k2 x0 x1 x2))]
      else [])
  ++ [EvBarrier].

Definition transform_unless (transformed : bool) : list Event :=
  if transformed then [] else [EvFunctionBackward fu_hat fu].

Definition write_event (tstep : Z) (fields : Fields) (fh uh : Spec) : Event :=
  EvFileWrite tstep fields true
    ((fun _ => transformed_fu fh uh) <$> field_locs fields).

Definition plot_events (uh : Spec) (x0 x1 : Phys) : list Event :=
  [EvAxClear;
   EvContourf (slice_last x1 0) (slice_last x0 0)
              (slice_last (backward T uh) (N_at 2 `div` 2)) 100;
   EvPause 1e-6%Q].

Definition update_events (t : F) (tstep : Z) (params : Params)
    (fh uh : Spec) (k0 k1 k2 : Spec) (x0 x1 x2 : Phys) : list Event :=
  [EvTimer]
  ++ (if plot_now tstep params
      then transform_unless false ++ plot_events uh x0 x1
      else [])
  ++ (if slice_now tstep params
      then transform_unless (plot_now tstep params)
           ++ [write_event tstep (write_slice_tstep params).2 fh uh]
      else [])
  ++ (if checkpoint_now tstep params
      then transform_unless (plot_now tstep params || slice_now tstep params)
           ++ [write_event tstep (write_tstep params).2 fh uh]
      else [])
  ++ (if energy_now tstep params
      then transform_unless (plot_now tstep params || slice_now tstep params
                             || checkpoint_now tstep params)
           ++ energy_events t fh uh k0 k1 k2 x0 x1 x2
      else []).

Definition update_phys (tstep : Z) (params : Params) (fh uh : Spec)
    (k0 k1 k2 : Spec) (h : gmap loc (nd Phys)) : gmap loc (nd Phys) :=
  let h1 := if any_now tstep params
            then <[fu := transformed_fu fh uh]> h else h in
  if energy_now tstep params
  then <[gradu := Stack (gradu_fields uh k0 k1 k2)]> h1
  else h1.

(** The first plot, lines 101-105. *)
Definition first_plot (x0 x1 u : Phys) : list Event :=
  if decide (rank = 0)
  then [EvFigure;
        EvContourf (slice_last x1 0) (slice_last x0 0)
                   (slice_last u (N_at 2 `div` 2)) 100;
        EvDraw; EvPause 1e-4%Q]
  else [].

(** ** Observations on a trace *)

(** The spaces whose transforms a trace calls. *)
Definition transform_spaces (evs : list Event) : list TensorProductSpace :=
  evs ≫= (fun e => match e with
                   | EvForward V | EvBackward V => [V]
                   | _ => []
                   end).

(** The file writes of a trace: step and dictionary. *)
Definition file_writes (evs : list Event) : list (Z * Fields) :=
  evs ≫= (fun e => match e with
                   | EvFileWrite ts fs _ _ => [(ts, fs)]
                   | _ => []
                   end).

(** The arrays a trace writes to the file. *)
Definition written_data (evs : list Event) : list (nd Phys) :=
  evs ≫= (fun e => match e with
                   | EvFileWrite _ _ _ d => d
                   | _ => []
                   end).

(** The fields a trace plots. *)
Definition plotted_data (evs : list Event) : list Phys :=
  evs ≫= (fun e => match e with
                   | EvContourf _ _ d _ => [d]
                   | _ => []
                   end).

(** How often a trace runs [fu_hat.backward(fu)]. *)
Definition count_transforms (evs : list Event) : nat :=
  length (evs ≫= (fun e => match e with
                           | EvFunctionBackward _ _ => [e]
                           | _ => []
                           end)).

(** The events of the energy branch. *)
Definition is_diagnostic (e : Event) : bool :=
  match e with
  | EvAllreduce _ | EvVectorBackward _ _ | EvPrint _ _ _ _ | EvBarrier => true
  | _ => false
  end.

Definition diagnostics (evs : list Event) : list Event :=
  evs ≫= (fun e => if is_diagnostic e then [e] else []).

Definition prints (evs : list Event) : list Event :=
  evs ≫= (fun e => match e with EvPrint _ _ _ _ => [e] | _ => [] end).

(** ** Well-formed states *)

Definition two_fields {A} (h : gmap loc (nd A)) (l : loc) : Prop :=
  exists f u : A, h !! l = Some (Stack [f; u]).

(** The arrays of the module as lines 64-75 shape them. *)
Definition state_ok (s : State) : Prop :=
  two_fields (phys s) fu
  /\ two_fields (spec s) fu_hat
  /\ two_fields (spec s) dfu
  /\ (exists p, phys s !! up = Some (Scalar p))
  /\ (exists g0 g1 g2, phys s !! gradu = Some (Stack [g0; g1; g2])).

End Script.

(** The padding the claim of dealiasing asks for. *)
Definition dealiased (V : TensorProductSpace) : Prop :=
  Forall (fun b => b_padding_factor b = Some 1.5%Q) (bases V).

(** ** A library to run the script on *)

(** A grid of one point on one process, over the rationals: the transform of
    a one-point grid is the identity, the only wavenumber is zero, spectral
    values are pairs (real and imaginary part), and [exp] is cut after its
    linear term. *)
Definition expr_symbol : expr -> Q :=
  fix go (e : expr) : Q :=
    match e with
    | Fn _ => 1%Q
    | grad e => 0%Q
    | Neg e => Qopp (go e)
    | Times c e => Qmult (inject_Z c) (go e)
    end.

Definition one_point : Library := {|
  F := Q;
  fadd := Qplus;
  fmul := Qmult;
  fdiv := Qdiv;
  flit := fun q => q;
  fofZ := inject_Z;
  Phys := Q;
  pzero := 0%Q;
  padd := Qplus;
  psub := Qminus;
  pmul := Qmult;
  ppow := Qpower;
  pscal := Qmult;
  pneg := Qopp;
  pexp := fun x => Qplus 1%Q x;
  slice_last := fun x _ => x;
  np_sum := fun x => match x with
                     | Scalar a => a
                     | Stack l => foldr Qplus 0%Q l
                     end;
  Spec := Q * Q;
  szero := (0%Q, 0%Q);
  sadd := fun a b => (Qplus a.1 b.1, Qplus a.2 b.2);
  smul := fun a b => (Qminus (Qmult a.1 b.1) (Qmult a.2 b.2),
                      Qplus (Qmult a.1 b.2) (Qmult a.2 b.1));
  sscal_j := fun a => (Qopp a.2, a.1);
  forward := fun _ x => (x, 0%Q);
  backward := fun _ a => a.1;
  local_mesh := fun V _ => (fun _ => 0%Q) <$> bases V;
  local_wavenumbers := fun V _ _ _ => (fun _ => (0%Q, 0%Q)) <$> bases V;
  energy_fourier := fun x _ =>
    let sq (a : Q * Q) := Qplus (Qmult a.1 a.1) (Qmult a.2 a.2) in
    match x with
    | Scalar a => sq a
    | Stack l => foldr Qplus 0%Q (sq <$> l)
    end;
  allreduce := fun x => x;
  Op := Q;
  inner := fun a b => Qmult (expr_symbol a) (expr_symbol b);
  op_sub := Qminus;
  op_apply := fun c a => (Qmult c a.1, Qmult c a.2)
|}.

(** A state of the one-point run: [fu_hat] holds [f_hat = 3] and
    [u_hat = 2], the work array [dfu] holds other values. *)
Definition one_point_state : @State one_point :=
  @mkState one_point
    (<[fu := Stack [0%Q; 1%Q]]>
       (<[up := Scalar 0%Q]>
          (<[gradu := Stack [0%Q; 0%Q; 0%Q]]> ∅)))
    (<[fu_hat := Stack [(3%Q, 0%Q); (2%Q, 0%Q)]]>
       (<[dfu := Stack [(7%Q, 7%Q); (9%Q, 9%Q)]]> ∅))
    0 [].

(** ** Calls in a row *)

Section Iteration.
Context {lib : Library}.

(** [n] calls of [m], one after the other, as an integrator makes them. *)
Fixpoint calls {A} (n : nat) (m : M A) : M unit :=
  match n with
  | O => ret tt
  | S n' => m ≫= fun _ => calls n' m
  end.

End Iteration.

(** ** More inputs for the one-point run *)

(** The parameters [par] with other periods. *)
Definition par_with (slice checkpoint energy plot : Z) : Params :=
  mkParams (slice, (write_slice_tstep par).2)
           (checkpoint, (write_tstep par).2)
           energy plot (end_time par) (file par).

(** The one-point state with one more two-component array, at a location
    of its own. *)
Definition other_array : loc := 6%positive.
Definition one_point_state_other : @State one_point :=
  @mkState one_point
    (<[other_array := Stack [5%Q; 5%Q]]> (@phys one_point one_point_state))
    (@spec one_point one_point_state) 0 [].

(** ** Running the primitives *)

Lemma Tp_is_T : Tp = T.
Proof. reflexivity. Qed.

#[global] Arguments Tp : simpl never.
#[global] Arguments np_prod : simpl never.
#[global] Arguments T : simpl never.
#[global] Arguments TV : simpl never.
#[global] Arguments gamma : simpl never.

Section Runs.
Context {lib : Library}.

Lemma run_bind {A B} (m : M A) (k : A -> M B) (s : State) :
  (m ≫= k) s = match m s with
               | Ok (a, s') => k a s'
               | Raise e => Raise e
               end.
Proof. reflexivity. Qed.

Lemma run_ret {A} (a : A) (s : State) : ret a s = Ok (a, s).
Proof. reflexivity. Qed.

Lemma run_log (e : Event) (s : State) :
  log e s = Ok (tt, mkState (phys s) (spec s) (count s) (trace s ++ [e])).
Proof. reflexivity. Qed.

Lemma run_unpack2_spec (l : loc) (s : State) (a b : Spec) :
  spec s !! l = Some (Stack [a; b]) ->
  unpack2_spec l s = Ok ((Comp l 0, Comp l 1), s).
Proof. intros E. unfold unpack2_spec, with_spec, h_unpack2. by rewrite E. Qed.

Lemma run_unpack2_phys (l : loc) (s : State) (a b : Phys) :
  phys s !! l = Some (Stack [a; b]) ->
  unpack2_phys l s = Ok ((Comp l 0, Comp l 1), s).
Proof. intros E. unfold unpack2_phys, with_phys, h_unpack2. by rewrite E. Qed.

Lemma run_read_spec (l : loc) (i : nat) (s : State) (ls : list Spec) (v : Spec) :
  spec s !! l = Some (Stack ls) -> ls !! i = Some v ->
  read_spec (Comp l i) s = Ok (v, s).
Proof.
  intros E Ei. unfold read_spec, with_spec, h_read. by rewrite E, Ei.
Qed.

Lemma run_read_phys (l : loc) (i : nat) (s : State) (ls : list Phys) (v : Phys) :
  phys s !! l = Some (Stack ls) -> ls !! i = Some v ->
  read_phys (Comp l i) s = Ok (v, s).
Proof.
  intros E Ei. unfold read_phys, with_phys, h_read. by rewrite E, Ei.
Qed.

Lemma run_read_phys_whole (l : loc) (s : State) (v : Phys) :
  phys s !! l = Some (Scalar v) -> read_phys (Whole l) s = Ok (v, s).
Proof. intros E. unfold read_phys, with_phys, h_read. by rewrite E. Qed.

Lemma run_write_spec (l : loc) (i : nat) (s : State) (ls : list Spec) (v : Spec) :
  spec s !! l = Some (Stack ls) -> (i < length ls)%nat ->
  write_spec (Comp l i) v s =
    Ok (tt, mkState (phys s) (<[l := Stack (<[i := v]> ls)]> (spec s))
                    (count s) (trace s)).
Proof.
  intros E Hi. unfold write_spec, set_spec, h_write. rewrite E.
  by rewrite decide_True.
Qed.

Lemma run_write_phys (l : loc) (i : nat) (s : State) (ls : list Phys) (v : Phys) :
  phys s !! l = Some (Stack ls) -> (i < length ls)%nat ->
  write_phys (Comp l i) v s =
    Ok (tt, mkState (<[l := Stack (<[i := v]> ls)]> (phys s)) (spec s)
                    (count s) (trace s)).
Proof.
  intros E Hi. unfold write_phys, set_phys, h_write. rewrite E.
  by rewrite decide_True.
Qed.

Lemma run_write_phys_whole (l : loc) (s : State) (x : nd Phys) (v : Phys) :
  phys s !! l = Some x ->
  write_phys (Whole l) v s =
    Ok (tt, mkState (<[l := nd_map (fun _ => v) x]> (phys s)) (spec s)
                    (count s) (trace s)).
Proof. intros E. unfold write_phys, set_phys, h_write. by rewrite E. Qed.

Lemma run_fill_spec (l : loc) (s : State) (x : nd Spec) (v : Spec) :
  spec s !! l = Some x ->
  set_spec (fun h => h_fill h l v) s =
    Ok (tt, mkState (phys s) (<[l := nd_map (fun _ => v) x]> (spec s))
                    (count s) (trace s)).
Proof. intros E. unfold set_spec, h_fill. by rewrite E. Qed.

(** One statement of a monadic body: rewrite with the run lemma of its
    head, discharge the lookups, and expose the next statement. *)
Ltac lookups :=
  simpl; repeat first
    [ rewrite lookup_insert_eq
    | rewrite lookup_insert_ne by done
    | rewrite insert_insert_eq ];
  first [ eassumption | reflexivity | simpl; lia | done ].

Ltac run lem :=
  rewrite run_bind; erewrite lem; [ simpl | lookups .. ].

Lemma run_space_backward (V : TensorProductSpace) (l : loc) (i : nat)
    (o : loc) (s : State) (ls : list Spec) (v : Spec) (x : nd Phys) :
  spec s !! l = Some (Stack ls) -> ls !! i = Some v ->
  phys s !! o = Some x ->
  space_backward V (Comp l i) (Whole o) s =
    Ok (Whole o,
        mkState (<[o := nd_map (fun _ => backward V v) x]> (phys s)) (spec s)
                (count s) (trace s ++ [EvBackward V])).
Proof.
  intros E Ei Eo. unfold space_backward.
  run run_read_spec. rewrite run_bind, run_log. simpl.
  by run run_write_phys_whole.
Qed.

Lemma run_space_forward (V : TensorProductSpace) (input : Phys) (l : loc)
    (i : nat) (s : State) (ls : list Spec) :
  spec s !! l = Some (Stack ls) -> (i < length ls)%nat ->
  space_forward V input (Comp l i) s =
    Ok (Comp l i,
        mkState (phys s) (<[l := Stack (<[i := forward V input]> ls)]> (spec s))
                (count s) (trace s ++ [EvForward V])).
Proof.
  intros E Hi. unfold space_forward.
  rewrite run_bind, run_log. simpl.
  by run run_write_spec.
Qed.

Lemma NonlinearRHS_run (a a_hat d : loc) (s : State)
    (fh uh d0 d1 : Spec) (p0 : Phys) :
  a_hat ≠ d ->
  spec s !! a_hat = Some (Stack [fh; uh]) ->
  spec s !! d = Some (Stack [d0; d1]) ->
  phys s !! up = Some (Scalar p0) ->
  NonlinearRHS a a_hat d s =
    Ok (d, mkState
             (<[up := Scalar (backward Tp uh)]> (phys s))
             (<[d := Stack [sadd (forward Tp (pscal (fofZ gamma)
                                       (ppow (backward Tp uh) 3)))
                                 (op_apply L uh); fh]]> (spec s))
             (count s + 1)
             (trace s ++ [EvBackward Tp; EvForward Tp])).
Proof.
  intros Hne Ha Hd Hup. unfold NonlinearRHS.
  rewrite run_bind. unfold incr_count at 1.
  run run_fill_spec.
  run run_unpack2_spec.
  run run_unpack2_spec.
  run run_space_backward.
  run run_read_phys_whole.
  run run_space_forward.
  run run_read_spec.
  run run_read_spec.
  run run_write_spec.
  run run_read_spec.
  run run_write_spec.
  rewrite run_ret, !insert_insert_eq, <- app_assoc. reflexivity.
Qed.

(** *** Blocks of the update callback *)

Lemma run_Function_backward (src dst : loc) (s : State)
    (fh uh : Spec) (f0 u0 : Phys) :
  spec s !! src = Some (Stack [fh; uh]) ->
  phys s !! dst = Some (Stack [f0; u0]) ->
  Function_backward src dst s =
    Ok (dst, mkState (<[dst := Stack [backward T fh; backward T uh]]> (phys s))
                     (spec s) (count s)
                     (trace s ++ [EvFunctionBackward src dst])).
Proof.
  intros Es Ed. unfold Function_backward, mixed_backward.
  rewrite run_bind. unfold with_spec at 1, h_get. rewrite Es. simpl.
  rewrite run_bind, run_log. simpl.
  rewrite run_bind. unfold with_phys at 1. simpl. rewrite Ed. simpl.
  reflexivity.
Qed.

Lemma snapshot_same (h : gmap loc (nd Phys)) (l : loc) (x : nd Phys)
    (ls : list loc) :
  h !! l = Some x -> Forall (fun l' => l' = l) ls ->
  snapshot h ls = Ok ((fun _ => x) <$> ls).
Proof.
  intros E. induction 1 as [|l' ls -> _ IH]; [done|].
  simpl. unfold h_get. by rewrite E, IH.
Qed.

Lemma run_file_write (tstep : Z) (fields : Fields) (l : loc) (s : State)
    (x : nd Phys) :
  phys s !! l = Some x -> Forall (fun l' => l' = l) (field_locs fields) ->
  file_write tstep fields s =
    Ok (tt, mkState (phys s) (spec s) (count s)
              (trace s ++ [EvFileWrite tstep fields true
                             ((fun _ => x) <$> field_locs fields)])).
Proof.
  intros E Hl. unfold file_write.
  rewrite run_bind. unfold with_phys. by rewrite (snapshot_same _ l x).
Qed.

Lemma run_get_phys (l : loc) (s : State) (x : nd Phys) :
  phys s !! l = Some x ->
  with_phys (fun h => h_get h l) s = Ok (x, s).
Proof. intros E. unfold with_phys, h_get. by rewrite E. Qed.

Lemma run_comm_allreduce (x : F) (s : State) :
  comm_allreduce x s =
    Ok (allreduce x,
        mkState (phys s) (spec s) (count s) (trace s ++ [EvAllreduce x])).
Proof. reflexivity. Qed.

Lemma run_vector_backward (dst : loc) (s : State) (a b c : Spec)
    (g0 g1 g2 : Phys) :
  phys s !! dst = Some (Stack [g0; g1; g2]) ->
  vector_backward (Stack [a; b; c]) dst s =
    Ok (dst, mkState (<[dst := Stack (backward T <$> [a; b; c])]> (phys s))
                     (spec s) (count s)
                     (trace s ++ [EvVectorBackward TV dst])).
Proof.
  intros E. unfold vector_backward, mixed_backward.
  rewrite run_bind, run_log. cbn [phys spec count trace].
  run run_get_phys. reflexivity.
Qed.

Lemma run_energy_block (rank : Z) (t : F) (s : State)
    (fh uh : Spec) (k0 k1 k2 : Spec) (x0 x1 x2 g0 g1 g2 : Phys) :
  local_mesh T true = [x0; x1; x2] ->
  local_wavenumbers T true true true = [k0; k1; k2] ->
  phys s !! fu = Some (transformed_fu fh uh) ->
  spec s !! fu_hat = Some (Stack [fh; uh]) ->
  phys s !! gradu = Some (Stack [g0; g1; g2]) ->
  energy_block rank fu fu_hat t s =
    Ok (tt, mkState (<[gradu := Stack (gradu_fields uh k0 k1 k2)]> (phys s))
                    (spec s) (count s)
                    (trace s ++ energy_events rank t fh uh k0 k1 k2 x0 x1 x2)).
Proof.
  intros EX EK Ef Eh Eg. unfold energy_block.
  run run_unpack2_phys.
  run run_unpack2_spec.
  run run_read_spec.
  run run_read_spec.
  unfold jK_times, K, X. rewrite EK, EX.
  rewrite run_bind. simpl.
  run run_read_phys.
  run run_comm_allreduce.
  run run_read_spec.
  rewrite run_bind. simpl.
  run run_vector_backward.
  run run_read_phys.
  run run_get_phys.
  rewrite run_bind. simpl.
  run run_comm_allreduce.
  run run_read_phys.
  run run_get_phys.
  run run_read_phys.
  do 3 (rewrite run_bind; simpl).
  run run_comm_allreduce.
  unfold energy_events, gradu_fields, jKu, kinetic, strain, potential_local,
    linear_momentum_local, angular_momentum_local.
  destruct (decide (rank = 0)); simpl;
    rewrite ?run_bind, ?run_log; simpl;
    rewrite ?run_ret, ?run_log; simpl.
  all: rewrite <- !app_assoc; reflexivity.
Qed.

(** *** The update callback as a whole *)

Lemma pymod_ok (a b : Z) : b ≠ 0 -> pymod a b = Ok (a mod b).
Proof. intros Hb. unfold pymod. by rewrite decide_False. Qed.

Lemma update_run (rank : Z) (t : F) (tstep : Z) (params : Params)
    (s : State) (fh uh k0 k1 k2 : Spec) (x0 x1 x2 f0 u0 g0 g1 g2 : Phys) :
  local_mesh T true = [x0; x1; x2] ->
  local_wavenumbers T true true true = [k0; k1; k2] ->
  phys s !! fu = Some (Stack [f0; u0]) ->
  spec s !! fu_hat = Some (Stack [fh; uh]) ->
  phys s !! gradu = Some (Stack [g0; g1; g2]) ->
  (rank = 0 -> plot_tstep params ≠ 0) ->
  (write_slice_tstep params).1 ≠ 0 ->
  (write_tstep params).1 ≠ 0 ->
  Compute_energy params ≠ 0 ->
  Forall (fun l => l = fu) (field_locs (write_slice_tstep params).2) ->
  Forall (fun l => l = fu) (field_locs (write_tstep params).2) ->
  update rank fu fu_hat t tstep params s =
    Ok (tt, mkState (update_phys rank tstep params fh uh k0 k1 k2 (phys s))
                    (spec s) (count s)
                    (trace s ++ update_events rank t tstep params
                                              fh uh k0 k1 k2 x0 x1 x2)).
Proof.
  intros EX EK Ef Eh Eg Hp Hs Hc He Fs Fc.
  unfold update, plot_due, update_events, update_phys, any_now, plot_now,
    slice_now, checkpoint_now, energy_now, write_event, plot_events,
    transform_unless.
  rewrite !bool_decide_decide.
  destruct (decide (rank = 0)) as [Hr|Hr];
  destruct (decide (tstep mod plot_tstep params = 0));
  destruct (decide (plot_tstep params > 0));
  destruct (decide (tstep mod (write_slice_tstep params).1 = 0));
  destruct (decide (tstep mod (write_tstep params).1 = 0));
  destruct (decide (tstep mod Compute_energy params = 0));
  simpl;
  repeat (first
    [ rewrite run_bind
    | rewrite run_ret
    | rewrite run_log
    | rewrite pymod_ok by auto
    | rewrite decide_True by assumption
    | rewrite decide_False by assumption
    | rewrite bool_decide_eq_true_2 by assumption
    | rewrite bool_decide_eq_false_2 by assumption
    | erewrite run_Function_backward by lookups
    | erewrite run_unpack2_phys by lookups
    | erewrite run_read_phys by lookups
    | erewrite (run_file_write _ _ fu) by lookups
    | erewrite run_energy_block by lookups
    | unfold item, X; rewrite EX ]; simpl);
  rewrite <- ?app_assoc; simpl; rewrite ?insert_insert_eq; reflexivity.
Qed.

(** *** Module initialisation *)

Lemma run_new_phys (l : loc) (x : nd Phys) (s : State) :
  new_phys l x s =
    Ok (tt, mkState (<[l := x]> (phys s)) (spec s) (count s) (trace s)).
Proof. reflexivity. Qed.

Lemma run_new_spec (l : loc) (x : nd Spec) (s : State) :
  new_spec l x s =
    Ok (tt, mkState (phys s) (<[l := x]> (spec s)) (count s) (trace s)).
Proof. reflexivity. Qed.

Lemma module_init_run (rank : Z) (x0 x1 x2 : Phys) :
  local_mesh T true = [x0; x1; x2] ->
  exists s0 : State,
    module_init rank empty_state = Ok (tt, s0)
    /\ phys s0 !! fu = Some (Stack [pzero; eval_sym ue x0 x1 x2])
    /\ phys s0 !! up = Some (Scalar pzero)
    /\ phys s0 !! gradu = Some (Stack [pzero; pzero; pzero])
    /\ spec s0 !! dfu = Some (Stack [szero; szero])
    /\ spec s0 !! fu_hat =
         Some (Stack [szero; forward T (eval_sym ue x0 x1 x2)])
    /\ count s0 = 0
    /\ trace s0 =
         EvForward T :: first_plot rank x0 x1 (eval_sym ue x0 x1 x2).
Proof.
  intros EX. unfold module_init, first_plot, ul, lambdify, item, X.
  rewrite EX.
  change (zeros_mixed pzero TT) with (Stack [pzero; pzero]).
  change (zeros_mixed szero TT) with (Stack [szero; szero]).
  change (zeros_mixed pzero TV) with (Stack [pzero; pzero; pzero]).
  destruct (decide (rank = 0)); eexists; (split; [|simpl]).
  1,3: repeat (first
      [ rewrite run_bind
      | rewrite run_ret
      | rewrite run_log
      | rewrite run_new_phys
      | rewrite run_new_spec
      | erewrite run_unpack2_phys by lookups
      | erewrite run_unpack2_spec by lookups
      | erewrite run_write_phys by lookups
      | erewrite run_read_phys by lookups
      | erewrite run_space_forward by lookups ]; simpl).
    all: try reflexivity.
  all: repeat split; lookups.
Qed.
End Runs.

(** * The claims *)

Section Claims.
Context {lib : Library}.

(** C2: the spatial discretization is a triply-periodic cube: each of the
    three directions has a Fourier basis (family 'F') on the same interval
    (-2*pi, 2*pi) with the same size 32, and the three bases make up the one
    tensor-product space [T]. *)
Theorem T_triply_periodic :
  N = [32; 32; 32]
  /\ bases T = [K0; K1; K2]
  /\ Forall (fun b => b_family b = "F"
                      /\ b_domain b = (PiMul (-2), PiMul 2)
                      /\ b_N b = 32) (bases T).
Proof. repeat split; repeat constructor. Qed.

(** C1: a call of [NonlinearRHS] with an output array [d] other than the
    input [a_hat] returns [d] holding the right-hand side of the mixed
    system: its first component is the forward transform of [gamma*u**3],
    [u] the backward transform of [u_hat], plus [L] applied to [u_hat], where
    [L] is the assembled form [inner(grad(vh), -grad(uh)) - inner(vh,
    gamma*uh)]; its second component is [f_hat]. *)
Theorem NonlinearRHS_computes_rhs (a a_hat d : loc) (s : State)
    (fhat uhat d0 d1 : Spec) (p0 : Phys) :
  a_hat ≠ d ->
  spec s !! a_hat = Some (Stack [fhat; uhat]) ->
  spec s !! d = Some (Stack [d0; d1]) ->
  phys s !! up = Some (Scalar p0) ->
  let u := backward Tp uhat in
  exists s' : State,
    NonlinearRHS a a_hat d s = Ok (d, s')
    /\ spec s' !! d =
         Some (Stack [sadd (forward Tp (pscal (fofZ gamma) (ppow u 3)))
                           (op_apply L uhat);
                      fhat])
    /\ L = op_sub (inner (grad vh) (Neg (grad uh)))
                  (inner vh (Times gamma uh)).
Proof.
  intros Hne Ha Hd Hup u. eexists. split.
  - by apply (NonlinearRHS_run a a_hat d s fhat uhat d0 d1 p0).
  - split; [|reflexivity]. simpl. by rewrite lookup_insert_eq.
Qed.

(** C9: a call of [NonlinearRHS] with an output array [d] other than the
    input [a_hat] leaves [a_hat], and every spectral array other than [d],
    as it was; what it leaves in [d] is the same from any other state in
    which [a_hat] holds the same two fields, whatever [d] held on entry. *)
Theorem NonlinearRHS_frame (a a_hat d : loc) (s : State)
    (fhat uhat d0 d1 : Spec) (p0 : Phys) :
  a_hat ≠ d ->
  spec s !! a_hat = Some (Stack [fhat; uhat]) ->
  spec s !! d = Some (Stack [d0; d1]) ->
  phys s !! up = Some (Scalar p0) ->
  exists s' : State,
    NonlinearRHS a a_hat d s = Ok (d, s')
    /\ spec s' !! a_hat = Some (Stack [fhat; uhat])
    /\ (forall l : loc, l ≠ d -> spec s' !! l = spec s !! l)
    /\ (forall (s2 : State) (e0 e1 : Spec) (q0 : Phys),
          spec s2 !! a_hat = Some (Stack [fhat; uhat]) ->
          spec s2 !! d = Some (Stack [e0; e1]) ->
          phys s2 !! up = Some (Scalar q0) ->
          exists s2' : State,
            NonlinearRHS a a_hat d s2 = Ok (d, s2')
            /\ spec s2' !! d = spec s' !! d).
Proof.
  intros Hne Ha Hd Hup. eexists. split.
  - by apply (NonlinearRHS_run a a_hat d s fhat uhat d0 d1 p0).
  - simpl. split; [by rewrite lookup_insert_ne|].
    split; [intros l Hl; by rewrite lookup_insert_ne|].
    intros s2 e0 e1 q0 Ha2 Hd2 Hup2. eexists. split.
    + by apply (NonlinearRHS_run a a_hat d s2 fhat uhat e0 e1 q0).
    + simpl. by rewrite !lookup_insert_eq.
Qed.

(** C3, as amended: in a call of [NonlinearRHS] the backward transform of
    [u_hat] and the forward transform of the product both run on [Tp], and
    [Tp] is the space [T], whose bases are built without a padding factor:
    line 61 binds [Tp] to [T] after lines 52-58 built the space with
    padding factor 1.5. *)
Theorem NonlinearRHS_transforms_on_T (a a_hat d : loc) (s : State)
    (fhat uhat d0 d1 : Spec) (p0 : Phys) :
  a_hat ≠ d ->
  spec s !! a_hat = Some (Stack [fhat; uhat]) ->
  spec s !! d = Some (Stack [d0; d1]) ->
  phys s !! up = Some (Scalar p0) ->
  exists s' : State,
    NonlinearRHS a a_hat d s = Ok (d, s')
    /\ trace s' = trace s ++ [EvBackward T; EvForward T]
    /\ Forall (fun b => b_padding_factor b = None) (bases T)
    /\ namespace_after_line_58 !! "Tp" = Some Tp_padded
    /\ namespace_after_line_61 !! "Tp" = Some T
    /\ dealiased Tp_padded.
Proof.
  intros Hne Ha Hd Hup. eexists. split.
  - by apply (NonlinearRHS_run a a_hat d s fhat uhat d0 d1 p0).
  - simpl. rewrite Tp_is_T. repeat split; repeat constructor.
Qed.

(** C7: the main block constructs an ETDRK4 integrator over [TT] with
    [NonlinearRHS] as [N] and [update] as [update], sets it up with
    [dt = 0.005] and runs [solve] on [fu, fu_hat] over [(0, 100.)]. *)
Theorem main_runs_ETDRK4 (rank : Z) :
  exists rest : list Call,
    main rank =
      [NewHDF5File file0;
       NewETDRK4 TT NonlinearRHS (update rank) par;
       Setup 0.005%Q;
       WallClock;
       Solve fu fu_hat 0.005%Q (0, 100%Q);
       TimerFinal true] ++ rest.
Proof. eexists. reflexivity. Qed.

(** C8: module initialisation leaves in [fu] the components [f = 0] and
    [u = 0.1*exp(-(x**2 + y**2 + z**2))] on the local mesh, and in [fu_hat]
    the components [f_hat = 0] and [u_hat], the forward transform of [u]
    over [T]. *)
Theorem initial_condition (rank : Z) (x y z : Phys) :
  X = [x; y; z] ->
  let u := pscal (flit 0.1%Q)
             (pexp (pneg (padd (padd (ppow x 2) (ppow y 2)) (ppow z 2)))) in
  exists s0 : State,
    module_init rank empty_state = Ok (tt, s0)
    /\ phys s0 !! fu = Some (Stack [pzero; u])
    /\ spec s0 !! fu_hat = Some (Stack [szero; forward T u]).
Proof.
  intros EX u.
  destruct (module_init_run rank x y z EX) as (s0 & E & Hfu & _ & _ & _ & Hh & _).
  exists s0. auto.
Qed.


(** The hypotheses of [update_run] that concern [par] alone. *)
Lemma par_ok (rank : Z) :
  (rank = 0 -> plot_tstep par ≠ 0)
  /\ (write_slice_tstep par).1 ≠ 0
  /\ (write_tstep par).1 ≠ 0
  /\ Compute_energy par ≠ 0
  /\ Forall (fun l => l = fu) (field_locs (write_slice_tstep par).2)
  /\ Forall (fun l => l = fu) (field_locs (write_tstep par).2).
Proof. repeat split; try done; repeat constructor. Qed.

Lemma update_par_run (rank : Z) (t : F) (tstep : Z) (s : State)
    (fhat uhat k0 k1 k2 : Spec) (x0 x1 x2 f0 u0 g0 g1 g2 : Phys) :
  X = [x0; x1; x2] ->
  K = Stack [k0; k1; k2] ->
  phys s !! fu = Some (Stack [f0; u0]) ->
  spec s !! fu_hat = Some (Stack [fhat; uhat]) ->
  phys s !! gradu = Some (Stack [g0; g1; g2]) ->
  update rank fu fu_hat t tstep par s =
    Ok (tt, mkState (update_phys rank tstep par fhat uhat k0 k1 k2 (phys s))
                    (spec s) (count s)
                    (trace s ++ update_events rank t tstep par
                                              fhat uhat k0 k1 k2 x0 x1 x2)).
Proof.
  intros EX EK Ef Eh Eg. unfold K in EK. injection EK as EK.
  destruct (par_ok rank) as (? & ? & ? & ? & ? & ?).
  by eapply update_run.
Qed.

(** Case analysis on the conditions of a call of [update]. *)
Ltac update_cases :=
  unfold update_events, update_phys, any_now, plot_now, slice_now,
    checkpoint_now, energy_now, write_event, plot_events, transform_unless,
    energy_events, count_transforms, written_data, plotted_data, diagnostics,
    prints, file_writes in *;
  rewrite ?bool_decide_decide in *; simpl in *;
  repeat case_decide; simpl in *; try done;
  try lia;
  try (repeat first [ rewrite lookup_insert_eq
                    | rewrite lookup_insert_ne by done ]; done);
  try (rewrite ?app_nil_r, ?Forall_app; repeat split;
       first [ by apply Forall_fmap, Forall_true | by repeat constructor ]).

(** C6: in a call of [update] with the parameters [par], the file writes
    are: the slice dictionary when [tstep] is a multiple of
    [write_slice_tstep[0] = 10], followed by the full-field dictionary when
    [tstep] is a multiple of [write_tstep[0] = 50], and no other. *)
Theorem update_file_writes (rank : Z) (t : F) (tstep : Z) (s : State)
    (fhat uhat k0 k1 k2 : Spec) (x0 x1 x2 f0 u0 g0 g1 g2 : Phys) :
  X = [x0; x1; x2] ->
  K = Stack [k0; k1; k2] ->
  phys s !! fu = Some (Stack [f0; u0]) ->
  spec s !! fu_hat = Some (Stack [fhat; uhat]) ->
  phys s !! gradu = Some (Stack [g0; g1; g2]) ->
  exists (s' : State) (evs : list Event),
    update rank fu fu_hat t tstep par s = Ok (tt, s')
    /\ trace s' = trace s ++ evs
    /\ (write_slice_tstep par).1 = 10
    /\ (write_tstep par).1 = 50
    /\ file_writes evs =
         (if decide (tstep mod 10 = 0)
          then [(tstep, (write_slice_tstep par).2)] else [])
         ++ (if decide (tstep mod 50 = 0)
             then [(tstep, (write_tstep par).2)] else []).
Proof.
  intros EX EK Ef Eh Eg. eexists _, _. split.
  - by eapply update_par_run.
  - split; [reflexivity|]. do 2 (split; [reflexivity|]).
    update_cases.
Qed.


(** C5: in a call of [update] with the parameters [par], the energy branch
    runs exactly when [tstep] is a multiple of [Compute_energy = 100].  It
    all-reduces the potential energy [gamma*sum(0.5*u**2 - 0.25*u**4)] over
    the number of grid points, and on rank 0, and only there, prints the sum
    of the kinetic energy [0.5*energy_fourier(f_hat, T)], the strain energy
    [0.5*energy_fourier(1j*K*u_hat, T)] and the reduced potential energy,
    with the reduced linear and angular momentum. *)
Theorem update_energy_diagnostics (rank : Z) (t : F) (tstep : Z) (s : State)
    (fhat uhat k0 k1 k2 : Spec) (x0 x1 x2 f0 u0 g0 g1 g2 : Phys) :
  X = [x0; x1; x2] ->
  K = Stack [k0; k1; k2] ->
  phys s !! fu = Some (Stack [f0; u0]) ->
  spec s !! fu_hat = Some (Stack [fhat; uhat]) ->
  phys s !! gradu = Some (Stack [g0; g1; g2]) ->
  let u := backward T uhat in
  let ekin := fmul (flit 0.5%Q) (energy_fourier (Scalar fhat) T) in
  let es :=
    fmul (flit 0.5%Q)
         (energy_fourier (Stack [smul (sscal_j k0) uhat;
                                 smul (sscal_j k1) uhat;
                                 smul (sscal_j k2) uhat]) T) in
  let eg :=
    fdiv (fmul (fofZ gamma)
               (np_sum (Scalar (psub (pscal (flit 0.5%Q) (ppow u 2))
                                     (pscal (flit 0.25%Q) (ppow u 4))))))
         (fofZ (32 * 32 * 32)) in
  exists (s' : State) (evs : list Event) (ep ea : F),
    update rank fu fu_hat t tstep par s = Ok (tt, s')
    /\ trace s' = trace s ++ evs
    /\ Compute_energy par = 100
    /\ (tstep mod 100 = 0 ->
        diagnostics evs =
          [EvAllreduce eg; EvVectorBackward TV gradu;
           EvAllreduce ep; EvAllreduce ea]
          ++ (if decide (rank = 0)
              then [EvPrint t (fadd (fadd ekin es) (allreduce eg))
                            (allreduce ep) (allreduce ea)]
              else [])
          ++ [EvBarrier])
    /\ (tstep mod 100 ≠ 0 -> diagnostics evs = [])
    /\ (rank ≠ 0 -> prints evs = []).
Proof.
  intros EX EK Ef Eh Eg u ekin es eg.
  exists (mkState (update_phys rank tstep par fhat uhat k0 k1 k2 (phys s))
                  (spec s) (count s)
                  (trace s ++ update_events rank t tstep par
                                            fhat uhat k0 k1 k2 x0 x1 x2)).
  eexists _.
  exists (linear_momentum_local (backward T fhat) uhat k0 k1 k2).
  exists (angular_momentum_local (backward T fhat) u uhat k0 k1 k2 x0 x1 x2).
  split; [by eapply update_par_run|].
  split; [reflexivity|]. split; [reflexivity|].
  repeat split; intros; update_cases.
Qed.

(** C10: a call of [update] runs [fu_hat.backward(fu)] once when any of the
    plot, slice, checkpoint and energy conditions holds and not at all
    otherwise; every array written to the file, the plotted field and the
    fields of the energy branch are those of that one transform of
    [fu_hat]. *)
Theorem update_transforms_once (rank : Z) (t : F) (tstep : Z)
    (params : Params) (s : State)
    (fhat uhat k0 k1 k2 : Spec) (x0 x1 x2 f0 u0 g0 g1 g2 : Phys) :
  X = [x0; x1; x2] ->
  K = Stack [k0; k1; k2] ->
  phys s !! fu = Some (Stack [f0; u0]) ->
  spec s !! fu_hat = Some (Stack [fhat; uhat]) ->
  phys s !! gradu = Some (Stack [g0; g1; g2]) ->
  (rank = 0 -> plot_tstep params ≠ 0) ->
  (write_slice_tstep params).1 ≠ 0 ->
  (write_tstep params).1 ≠ 0 ->
  Compute_energy params ≠ 0 ->
  Forall (fun l => l = fu) (field_locs (write_slice_tstep params).2) ->
  Forall (fun l => l = fu) (field_locs (write_tstep params).2) ->
  exists (s' : State) (evs : list Event),
    update rank fu fu_hat t tstep params s = Ok (tt, s')
    /\ trace s' = trace s ++ evs
    /\ (count_transforms evs <= 1)%nat
    /\ count_transforms evs =
         (if any_now rank tstep params then 1 else 0)%nat
    /\ Forall (fun x => x = transformed_fu fhat uhat) (written_data evs)
    /\ Forall (fun x => x = slice_last (backward T uhat) (N_at 2 `div` 2))
              (plotted_data evs)
    /\ diagnostics evs =
         (if energy_now tstep params
          then energy_events rank t fhat uhat k0 k1 k2 x0 x1 x2 else [])
    /\ (any_now rank tstep params = true ->
        phys s' !! fu = Some (transformed_fu fhat uhat)).
Proof.
  intros EX EK Ef Eh Eg Hp Hs Hc He Fs Fc.
  unfold K in EK. injection EK as EK. eexists _, _. split.
  - by eapply update_run.
  - split; [reflexivity|].
    repeat split; try intros Hany; simpl in *; update_cases.
Qed.


Lemma length_3 {A} (l : list A) :
  length l = 3%nat -> exists a b c, l = [a; b; c].
Proof.
  destruct l as [|a [|b [|c [|? ?]]]]; try done. intros _. by exists a, b, c.
Qed.

Lemma state_ok_update (rank : Z) (tstep : Z) (params : Params)
    (fhat uhat k0 k1 k2 : Spec) (s : State) (c : Z) (tr : list Event) :
  state_ok s ->
  state_ok (mkState (update_phys rank tstep params fhat uhat k0 k1 k2 (phys s))
                    (spec s) c tr).
Proof.
  intros ((f0 & u0 & Hfu) & Hh & Hd & (p & Hup) & (g0 & g1 & g2 & Hg)).
  unfold state_ok, two_fields, update_phys, transformed_fu, gradu_fields, jKu.
  destruct (any_now rank tstep params), (energy_now tstep params); simpl;
    (split; [|split; [done|split; [done|split]]]);
    repeat first [ rewrite lookup_insert_eq
                 | rewrite lookup_insert_ne by done ];
    eauto.
Qed.

Lemma state_ok_NonlinearRHS (d : loc) (s : State) (q : Phys)
    (x y : Spec) (c : Z) (tr : list Event) :
  d ≠ fu_hat -> state_ok s ->
  state_ok (mkState (<[up := Scalar q]> (phys s))
                    (<[d := Stack [x; y]]> (spec s)) c tr).
Proof.
  intros Hne ((f0 & u0 & Hfu) & Hh & Hd & (p & Hup) & (g0 & g1 & g2 & Hg)).
  unfold state_ok, two_fields. simpl.
  rewrite lookup_insert_eq, !(lookup_insert_ne _ up) by done.
  rewrite (lookup_insert_ne _ d fu_hat) by done.
  repeat split; eauto.
  destruct (decide (d = dfu)) as [->|Hd'].
  - rewrite lookup_insert_eq. eauto.
  - by rewrite lookup_insert_ne.
Qed.

(** C4: [TT] is made of two copies of [T]; module initialisation leaves
    every state array with exactly two components; a call of
    [NonlinearRHS] on the state [fu_hat] with a two-component output array
    and a call of [update] keep it so, and every array [update] writes to
    the file has two components. *)
Theorem two_component_state (rank : Z) (t : F) (tstep : Z) (a d : loc)
    (s : State) :
  length X = 3%nat ->
  length (local_wavenumbers T true true true) = 3%nat ->
  state_ok s ->
  two_fields (spec s) d ->
  d ≠ fu_hat ->
  spaces TT = [T; T]
  /\ (exists s0 : State,
        module_init rank empty_state = Ok (tt, s0) /\ state_ok s0)
  /\ (exists s' : State,
        NonlinearRHS a fu_hat d s = Ok (d, s')
        /\ state_ok s' /\ two_fields (spec s') d)
  /\ (exists (s' : State) (evs : list Event),
        update rank fu fu_hat t tstep par s = Ok (tt, s')
        /\ trace s' = trace s ++ evs
        /\ state_ok s'
        /\ Forall (fun x => ncomp x = Some 2%nat) (written_data evs)).
Proof.
  intros HX HK Hok (d0 & d1 & Hd) Hne.
  destruct (length_3 _ HX) as (x0 & x1 & x2 & EX).
  destruct (length_3 _ HK) as (k0 & k1 & k2 & EK).
  pose proof Hok as
    ((f0 & u0 & Hfu) & (fhat & uhat & Hh) & _ & (p & Hup) & (g0 & g1 & g2 & Hg)).
  split; [reflexivity|]. split; [|split].
  - destruct (module_init_run rank x0 x1 x2 EX)
      as (s0 & E & H1 & H2 & H3 & H4 & H5 & _).
    exists s0. split; [done|]. unfold state_ok, two_fields.
    repeat split; eauto.
  - eexists. split.
    + apply (NonlinearRHS_run a fu_hat d s fhat uhat d0 d1 p); auto.
    + split; [by apply state_ok_NonlinearRHS|].
      unfold two_fields. simpl. rewrite lookup_insert_eq. eauto.
  - eexists _, _. split.
    + eapply update_par_run; eauto. unfold K. by rewrite EK.
    + split; [reflexivity|]. split; [by apply state_ok_update|].
      update_cases.
Qed.

End Claims.

(** * The claims on the one-point library *)

Section OnePoint.
#[local] Existing Instance one_point.

Lemma one_point_X : X = [0%Q; 0%Q; 0%Q].
Proof. reflexivity. Qed.

Lemma one_point_K : K = Stack [(0%Q, 0%Q); (0%Q, 0%Q); (0%Q, 0%Q)].
Proof. reflexivity. Qed.

Lemma one_point_state_ok : state_ok one_point_state.
Proof.
  unfold state_ok, two_fields, one_point_state. simpl.
  repeat split; eauto.
Qed.

(** C1 on the one-point state: [u = 2], so [gamma*u**3 = 8], and [L] is
    multiplication by [-1]. *)
Lemma NonlinearRHS_computes_rhs_witness :
  exists s' : State,
    NonlinearRHS fu fu_hat dfu one_point_state = Ok (dfu, s')
    /\ spec s' !! dfu = Some (Stack [(6%Q, 0%Q); (3%Q, 0%Q)]).
Proof.
  destruct (NonlinearRHS_computes_rhs (lib := one_point) fu fu_hat dfu one_point_state
              (3%Q, 0%Q) (2%Q, 0%Q) (7%Q, 7%Q) (9%Q, 9%Q) 0%Q)
    as (s' & E & Hd & _); [done | reflexivity | reflexivity | reflexivity |].
  exists s'. split; [exact E | exact Hd].
Defined.

(** C9 on the one-point state. *)
Lemma NonlinearRHS_frame_witness :
  exists s' : State,
    NonlinearRHS fu fu_hat dfu one_point_state = Ok (dfu, s')
    /\ spec s' !! fu_hat = Some (Stack [(3%Q, 0%Q); (2%Q, 0%Q)]).
Proof.
  destruct (NonlinearRHS_frame (lib := one_point) fu fu_hat dfu one_point_state
              (3%Q, 0%Q) (2%Q, 0%Q) (7%Q, 7%Q) (9%Q, 9%Q) 0%Q)
    as (s' & E & Hh & _); [done | reflexivity | reflexivity | reflexivity |].
  exists s'. split; [exact E | exact Hh].
Defined.

(** C3 as the claim states it fails on the one-point state: the spaces the
    transforms of [NonlinearRHS] run on are not padded. *)
Lemma NonlinearRHS_not_dealiased :
  exists s' : State,
    NonlinearRHS fu fu_hat dfu one_point_state = Ok (dfu, s')
    /\ transform_spaces (trace s') = [Tp; Tp]
    /\ ~ Forall dealiased (transform_spaces (trace s')).
Proof.
  eexists. split.
  - by apply (NonlinearRHS_run (lib := one_point) fu fu_hat dfu one_point_state
                (3%Q, 0%Q) (2%Q, 0%Q) (7%Q, 7%Q) (9%Q, 9%Q) 0%Q).
  - split; [reflexivity|]. simpl. intros Hall.
    apply Forall_cons_1 in Hall as [HTp _]. unfold dealiased in HTp.
    rewrite Tp_is_T in HTp. by apply Forall_cons_1 in HTp as [? _].
Qed.

(** C3, as amended, on the one-point state. *)
Lemma NonlinearRHS_transforms_on_T_witness :
  exists s' : State,
    NonlinearRHS fu fu_hat dfu one_point_state = Ok (dfu, s')
    /\ trace s' = [EvBackward T; EvForward T].
Proof.
  destruct (NonlinearRHS_transforms_on_T (lib := one_point) fu fu_hat dfu one_point_state
              (3%Q, 0%Q) (2%Q, 0%Q) (7%Q, 7%Q) (9%Q, 9%Q) 0%Q)
    as (s' & E & Ht & _); [done | reflexivity | reflexivity | reflexivity |].
  exists s'. split; [exact E | exact Ht].
Defined.

(** C8 on the one-point library: the mesh is the origin, where the initial
    condition is [0.1]. *)
Lemma initial_condition_witness :
  exists s0 : State,
    module_init 0 empty_state = Ok (tt, s0)
    /\ phys s0 !! fu = Some (Stack [0%Q; 0.1%Q])
    /\ spec s0 !! fu_hat = Some (Stack [(0%Q, 0%Q); (0.1%Q, 0%Q)]).
Proof.
  destruct (initial_condition (lib := one_point) 0 0%Q 0%Q 0%Q one_point_X)
    as (s0 & E & Hfu & Hh).
  exists s0. split; [exact E|]. split; [exact Hfu | exact Hh].
Defined.

(** C4 on the one-point state, at step 50 on rank 1. *)
Lemma two_component_state_witness :
  exists s' : State,
    update 1 fu fu_hat 0%Q 50 par one_point_state = Ok (tt, s')
    /\ state_ok s'.
Proof.
  destruct (two_component_state (lib := one_point) 1 0%Q 50 fu dfu one_point_state)
    as (_ & _ & _ & s' & evs & E & _ & Hok & _);
    [reflexivity | reflexivity | exact one_point_state_ok
    | by exists (7%Q, 7%Q), (9%Q, 9%Q) | done |].
  exists s'. split; [exact E | exact Hok].
Defined.

(** C5 on the one-point state, at step 100 on rank 0: the six events of
    the energy branch, the print among them. *)
Lemma update_energy_diagnostics_witness :
  exists (s' : State) (evs : list Event),
    update 0 fu fu_hat 0%Q 100 par one_point_state = Ok (tt, s')
    /\ trace s' = evs
    /\ length (diagnostics evs) = 6%nat.
Proof.
  destruct (update_energy_diagnostics (lib := one_point) 0 0%Q 100
              one_point_state
              (3%Q, 0%Q) (2%Q, 0%Q) (0%Q, 0%Q) (0%Q, 0%Q) (0%Q, 0%Q)
              0%Q 0%Q 0%Q 0%Q 1%Q 0%Q 0%Q 0%Q
              one_point_X one_point_K eq_refl eq_refl eq_refl)
    as (s' & evs & ep & ea & E & Ht & _ & Hd & _).
  exists s', evs. split; [exact E|]. split; [exact Ht|].
  rewrite (Hd eq_refl). reflexivity.
Defined.

(** C6 on the one-point state, at step 50: both writes. *)
Lemma update_file_writes_witness :
  exists (s' : State) (evs : list Event),
    update 1 fu fu_hat 0%Q 50 par one_point_state = Ok (tt, s')
    /\ trace s' = evs
    /\ file_writes evs =
         [(50, (write_slice_tstep par).2); (50, (write_tstep par).2)].
Proof.
  destruct (update_file_writes (lib := one_point) 1 0%Q 50 one_point_state
              (3%Q, 0%Q) (2%Q, 0%Q) (0%Q, 0%Q) (0%Q, 0%Q) (0%Q, 0%Q)
              0%Q 0%Q 0%Q 0%Q 1%Q 0%Q 0%Q 0%Q
              one_point_X one_point_K eq_refl eq_refl eq_refl)
    as (s' & evs & E & Ht & _ & _ & Hw).
  exists s', evs. split; [exact E|]. split; [exact Ht | exact Hw].
Defined.

(** C10 on the one-point state, at step 100 on rank 0, where all four
    conditions hold: one transform, and every array written is the
    transform [3, 2] of [fu_hat]. *)
Lemma update_transforms_once_witness :
  exists (s' : State) (evs : list Event),
    update 0 fu fu_hat 0%Q 100 par one_point_state = Ok (tt, s')
    /\ trace s' = evs
    /\ count_transforms evs = 1%nat
    /\ Forall (fun x => x = Stack [3%Q; 2%Q]) (written_data evs).
Proof.
  destruct (update_transforms_once (lib := one_point) 0 0%Q 100 par
              one_point_state
              (3%Q, 0%Q) (2%Q, 0%Q) (0%Q, 0%Q) (0%Q, 0%Q) (0%Q, 0%Q)
              0%Q 0%Q 0%Q 0%Q 1%Q 0%Q 0%Q 0%Q
              one_point_X one_point_K eq_refl eq_refl eq_refl)
    as (s' & evs & E & Ht & _ & Hc & Hw & _);
    [done | done | done | done | repeat constructor | repeat constructor |].
  exists s', evs. split; [exact E|]. split; [exact Ht|].
  split; [exact Hc | exact Hw].
Defined.

End OnePoint.

(** * Further properties of the script *)

Section Further.
Context {lib : Library}.

Ltac look :=
  simpl; repeat first
    [ rewrite lookup_insert_eq
    | rewrite lookup_insert_ne by done
    | rewrite insert_insert_eq ];
  first [ eassumption | reflexivity | simpl; lia | done ].

Ltac step lem :=
  rewrite run_bind; erewrite lem; [ simpl | look .. ].

(** X1: when the same array is passed to [NonlinearRHS] as input and as
    output, [fill(0)] clears the input before it is read: the call returns
    with both components equal to the right-hand side of the zero state,
    whatever the array held. *)
Theorem NonlinearRHS_same_array (a d : loc) (s : State)
    (fhat uhat : Spec) (p0 : Phys) :
  spec s !! d = Some (Stack [fhat; uhat]) ->
  phys s !! up = Some (Scalar p0) ->
  let y := sadd (forward Tp (pscal (fofZ gamma)
                               (ppow (backward Tp szero) 3)))
                (op_apply L szero) in
  exists s' : State,
    NonlinearRHS a d d s = Ok (d, s')
    /\ spec s' !! d = Some (Stack [y; y])
    /\ phys s' !! up = Some (Scalar (backward Tp szero)).
Proof.
  intros Hd Hup y. eexists. split.
  - unfold NonlinearRHS.
    rewrite run_bind. unfold incr_count at 1.
    step run_fill_spec.
    step run_unpack2_spec.
    step run_unpack2_spec.
    step run_space_backward.
    step run_read_phys_whole.
    step run_space_forward.
    step run_read_spec.
    step run_read_spec.
    step run_write_spec.
    step run_read_spec.
    step run_write_spec.
    rewrite run_ret. reflexivity.
  - simpl. rewrite !lookup_insert_eq. done.
Qed.


(** X3: any number of calls of [NonlinearRHS] in a row on the same input
    leaves in the output array what one call leaves, and counts every
    call. *)
Theorem NonlinearRHS_repeated (n : nat) (a a_hat d : loc) (s : State)
    (fhat uhat d0 d1 : Spec) (p0 : Phys) :
  a_hat ≠ d ->
  spec s !! a_hat = Some (Stack [fhat; uhat]) ->
  spec s !! d = Some (Stack [d0; d1]) ->
  phys s !! up = Some (Scalar p0) ->
  exists s1 s' : State,
    NonlinearRHS a a_hat d s = Ok (d, s1)
    /\ calls (S n) (NonlinearRHS a a_hat d) s = Ok (tt, s')
    /\ spec s' = spec s1
    /\ phys s' = phys s1
    /\ count s' = count s + Z.of_nat (S n).
Proof.
  intros Hne. revert s d0 d1 p0.
  induction n as [|n IH]; intros s d0 d1 p0 Ha Hd Hup.
  - eexists _, _. split.
    + by apply (NonlinearRHS_run a a_hat d s fhat uhat d0 d1 p0).
    + split.
      * simpl. rewrite run_bind.
        rewrite (NonlinearRHS_run a a_hat d s fhat uhat d0 d1 p0) by done.
        reflexivity.
      * simpl. repeat split; lia.
  - pose proof (NonlinearRHS_run a a_hat d s fhat uhat d0 d1 p0
                  Hne Ha Hd Hup) as E1.
    set (s1 := mkState _ _ _ _) in E1.
    destruct (IH s1 (sadd (forward Tp (pscal (fofZ gamma)
                                         (ppow (backward Tp uhat) 3)))
                          (op_apply L uhat)) fhat (backward Tp uhat))
      as (s2 & s' & E2 & En & Hs & Hp & Hc).
    + subst s1. simpl. by rewrite lookup_insert_ne.
    + subst s1. simpl. by rewrite lookup_insert_eq.
    + subst s1. simpl. by rewrite lookup_insert_eq.
    + exists s1, s'. split; [exact E1|]. split.
      * change (calls (S (S n)) (NonlinearRHS a a_hat d))
          with (NonlinearRHS a a_hat d ≫= fun _ =>
                calls (S n) (NonlinearRHS a a_hat d)).
        rewrite run_bind, E1. exact En.
      * rewrite Hs, Hp, Hc.
        erewrite (NonlinearRHS_run a a_hat d s1 fhat uhat) in E2;
          [ injection E2 as <-; subst s1; simpl;
            rewrite !insert_insert_eq; repeat split; lia
          | exact Hne
          | subst s1; simpl; by rewrite lookup_insert_ne
          | subst s1; simpl; by rewrite lookup_insert_eq
          | subst s1; simpl; by rewrite lookup_insert_eq ].
Qed.


(** Case analysis on the conditions of a call of [update]. *)
Ltac cases :=
  unfold update_events, update_phys, any_now, plot_now, slice_now,
    checkpoint_now, energy_now, write_event, plot_events, transform_unless,
    energy_events, count_transforms, written_data, plotted_data, diagnostics,
    prints, file_writes in *;
  rewrite ?bool_decide_decide in *; simpl in *;
  repeat case_decide; simpl in *; try done;
  try lia; try tauto;
  try (repeat first [ rewrite lookup_insert_eq
                    | rewrite lookup_insert_ne by done ]; done);
  try (rewrite ?app_nil_r, ?Forall_app; repeat split;
       first [ by apply Forall_fmap, Forall_true | by repeat constructor ]).

(** X4: a call of [update] never touches the spectral arrays or the call
    counter.  Of the physical arrays it writes [fu], and [gradu] when the
    energy branch runs; when no branch runs the whole store is as it
    was. *)
Theorem update_store_effects (rank : Z) (t : F) (tstep : Z)
    (params : Params) (s : State)
    (fhat uhat k0 k1 k2 : Spec) (x0 x1 x2 f0 u0 g0 g1 g2 : Phys) :
  X = [x0; x1; x2] ->
  K = Stack [k0; k1; k2] ->
  phys s !! fu = Some (Stack [f0; u0]) ->
  spec s !! fu_hat = Some (Stack [fhat; uhat]) ->
  phys s !! gradu = Some (Stack [g0; g1; g2]) ->
  (rank = 0 -> plot_tstep params ≠ 0) ->
  (write_slice_tstep params).1 ≠ 0 ->
  (write_tstep params).1 ≠ 0 ->
  Compute_energy params ≠ 0 ->
  Forall (fun l => l = fu) (field_locs (write_slice_tstep params).2) ->
  Forall (fun l => l = fu) (field_locs (write_tstep params).2) ->
  exists s' : State,
    update rank fu fu_hat t tstep params s = Ok (tt, s')
    /\ spec s' = spec s
    /\ count s' = count s
    /\ (forall l : loc, l ≠ fu -> l ≠ gradu -> phys s' !! l = phys s !! l)
    /\ phys s' !! gradu =
         (if decide (tstep mod Compute_energy params = 0)
          then Some (Stack [backward T (smul (sscal_j k0) uhat);
                            backward T (smul (sscal_j k1) uhat);
                            backward T (smul (sscal_j k2) uhat)])
          else Some (Stack [g0; g1; g2]))
    /\ (any_now rank tstep params = false -> phys s' = phys s).
Proof.
  intros EX EK Ef Eh Eg Hp Hs Hc He Fs Fc.
  unfold K in EK. injection EK as EK. eexists. split.
  - by eapply update_run.
  - simpl. do 2 (split; [reflexivity|]).
    split; [intros l Hl1 Hl2 | split; [|intros Hany]]; cases.
Qed.

(** X5: [update] plots exactly when the rank is 0, [tstep] is a multiple
    of [plot_tstep] and [plot_tstep] is positive; a negative [plot_tstep]
    turns plotting off, and on other ranks [plot_tstep] is not even
    looked at, so that zero is harmless there. *)
Theorem update_plot_guard (rank : Z) (t : F) (tstep : Z)
    (params : Params) (s : State)
    (fhat uhat k0 k1 k2 : Spec) (x0 x1 x2 f0 u0 g0 g1 g2 : Phys) :
  X = [x0; x1; x2] ->
  K = Stack [k0; k1; k2] ->
  phys s !! fu = Some (Stack [f0; u0]) ->
  spec s !! fu_hat = Some (Stack [fhat; uhat]) ->
  phys s !! gradu = Some (Stack [g0; g1; g2]) ->
  (rank = 0 -> plot_tstep params ≠ 0) ->
  (write_slice_tstep params).1 ≠ 0 ->
  (write_tstep params).1 ≠ 0 ->
  Compute_energy params ≠ 0 ->
  Forall (fun l => l = fu) (field_locs (write_slice_tstep params).2) ->
  Forall (fun l => l = fu) (field_locs (write_tstep params).2) ->
  exists (s' : State) (evs : list Event),
    update rank fu fu_hat t tstep params s = Ok (tt, s')
    /\ trace s' = trace s ++ evs
    /\ plotted_data evs =
         (if decide (rank = 0 /\ tstep mod plot_tstep params = 0
                     /\ plot_tstep params > 0)
          then [slice_last (backward T uhat) (N_at 2 `div` 2)]
          else []).
Proof.
  intros EX EK Ef Eh Eg Hp Hs Hc He Fs Fc.
  unfold K in EK. injection EK as EK. eexists _, _. split.
  - by eapply update_run.
  - split; [reflexivity|]. cases.
Qed.

(** X6: on rank 0 a [plot_tstep] of zero makes [update] raise
    [ZeroDivisionError], in any state: the modulo of line 113 runs before
    the test [plot_tstep > 0]. *)
Theorem update_zero_plot_tstep (a a_hat : loc) (t : F) (tstep : Z)
    (params : Params) (s : State) :
  plot_tstep params = 0 ->
  update 0 a a_hat t tstep params s = Raise ZeroDivisionError.
Proof.
  intros Hz. unfold update, plot_due.
  rewrite run_bind, run_log. simpl.
  rewrite !run_bind. unfold pymod. rewrite Hz. reflexivity.
Qed.


Lemma pymod_zero (a b : Z) : b = 0 -> pymod a b = Raise ZeroDivisionError.
Proof. intros ->. reflexivity. Qed.

(** Running [update] up to the statement that fails. *)
Ltac run_update EX :=
  repeat (first
    [ rewrite run_bind
    | rewrite run_ret
    | rewrite run_log
    | rewrite pymod_ok by auto
    | rewrite pymod_zero by assumption
    | rewrite decide_True by assumption
    | rewrite decide_False by assumption
    | rewrite bool_decide_eq_true_2 by assumption
    | rewrite bool_decide_eq_false_2 by assumption
    | erewrite run_Function_backward by look
    | erewrite run_unpack2_phys by look
    | erewrite run_read_phys by look
    | erewrite (run_file_write _ _ fu) by look
    | erewrite run_energy_block by look
    | unfold item, X; rewrite EX ]; simpl).

(** X7: a period of zero for the slice writes, the checkpoint writes or
    the energy diagnostics does not switch the branch off: [update] raises
    [ZeroDivisionError]. *)
Theorem update_zero_period (rank : Z) (t : F) (tstep : Z)
    (params : Params) (s : State)
    (fhat uhat k0 k1 k2 : Spec) (x0 x1 x2 f0 u0 g0 g1 g2 : Phys) :
  X = [x0; x1; x2] ->
  K = Stack [k0; k1; k2] ->
  phys s !! fu = Some (Stack [f0; u0]) ->
  spec s !! fu_hat = Some (Stack [fhat; uhat]) ->
  phys s !! gradu = Some (Stack [g0; g1; g2]) ->
  (rank = 0 -> plot_tstep params ≠ 0) ->
  Forall (fun l => l = fu) (field_locs (write_slice_tstep params).2) ->
  Forall (fun l => l = fu) (field_locs (write_tstep params).2) ->
  (write_slice_tstep params).1 = 0
  \/ (write_tstep params).1 = 0
  \/ Compute_energy params = 0 ->
  update rank fu fu_hat t tstep params s = Raise ZeroDivisionError.
Proof.
  intros EX EK Ef Eh Eg Hp Fs Fc Hz.
  unfold K in EK. injection EK as EK. unfold X in EX.
  unfold update, plot_due.
  destruct (decide ((write_slice_tstep params).1 = 0)) as [Zs|Zs];
    [|destruct (decide ((write_tstep params).1 = 0)) as [Zc|Zc];
      [|assert (Ze : Compute_energy params = 0) by tauto]];
  destruct (decide (rank = 0)) as [Hr|Hr];
  destruct (decide (tstep mod plot_tstep params = 0));
  destruct (decide (plot_tstep params > 0));
  try destruct (decide (tstep mod (write_slice_tstep params).1 = 0));
  try destruct (decide (tstep mod (write_tstep params).1 = 0));
  simpl; run_update EX; reflexivity.
Qed.

(** X8: [update] reports the same whether or not [NonlinearRHS] ran just
    before it: the events a call of [update] adds after a call of
    [NonlinearRHS] on [fu_hat] are those it adds without that call. *)
Theorem update_after_NonlinearRHS (rank : Z) (t : F) (tstep : Z)
    (params : Params) (a d : loc) (s : State)
    (fhat uhat d0 d1 k0 k1 k2 : Spec) (x0 x1 x2 f0 u0 g0 g1 g2 p0 : Phys) :
  X = [x0; x1; x2] ->
  K = Stack [k0; k1; k2] ->
  phys s !! fu = Some (Stack [f0; u0]) ->
  spec s !! fu_hat = Some (Stack [fhat; uhat]) ->
  phys s !! gradu = Some (Stack [g0; g1; g2]) ->
  (rank = 0 -> plot_tstep params ≠ 0) ->
  (write_slice_tstep params).1 ≠ 0 ->
  (write_tstep params).1 ≠ 0 ->
  Compute_energy params ≠ 0 ->
  Forall (fun l => l = fu) (field_locs (write_slice_tstep params).2) ->
  Forall (fun l => l = fu) (field_locs (write_tstep params).2) ->
  fu_hat ≠ d ->
  spec s !! d = Some (Stack [d0; d1]) ->
  phys s !! up = Some (Scalar p0) ->
  exists (s0 s1 s2 : State) (evs : list Event),
    update rank fu fu_hat t tstep params s = Ok (tt, s0)
    /\ trace s0 = trace s ++ evs
    /\ NonlinearRHS a fu_hat d s = Ok (d, s1)
    /\ update rank fu fu_hat t tstep params s1 = Ok (tt, s2)
    /\ trace s2 = trace s1 ++ evs
    /\ phys s2 !! fu = phys s0 !! fu
    /\ spec s2 !! d = spec s1 !! d.
Proof.
  intros EX EK Ef Eh Eg Hp Hs Hc He Fs Fc Hne Hd Hup.
  unfold K in EK. injection EK as EK.
  pose proof (NonlinearRHS_run a fu_hat d s fhat uhat d0 d1 p0
                Hne Eh Hd Hup) as E1.
  set (s1 := mkState _ _ _ _) in E1.
  eexists _, s1, _, _. split; [by eapply update_run|].
  split; [reflexivity|]. split; [exact E1|]. split.
  - eapply (update_run rank t tstep params s1 fhat uhat k0 k1 k2
              x0 x1 x2 f0 u0 g0 g1 g2); try done; subst s1; simpl;
      by rewrite lookup_insert_ne.
  - split; [reflexivity|]. split; [|reflexivity]. subst s1. simpl.
    unfold update_phys.
    destruct (any_now rank tstep params), (energy_now tstep params);
      repeat first [ rewrite lookup_insert_eq
                   | rewrite lookup_insert_ne by done ]; done.
Qed.


Lemma run_energy_block_at (rank : Z) (t : F) (a : loc) (s : State)
    (fh uh : Spec) (k0 k1 k2 : Spec) (x0 x1 x2 g0 g1 g2 : Phys) :
  gradu ≠ a ->
  local_mesh T true = [x0; x1; x2] ->
  local_wavenumbers T true true true = [k0; k1; k2] ->
  phys s !! a = Some (transformed_fu fh uh) ->
  spec s !! fu_hat = Some (Stack [fh; uh]) ->
  phys s !! gradu = Some (Stack [g0; g1; g2]) ->
  energy_block rank a fu_hat t s =
    Ok (tt, mkState (<[gradu := Stack (gradu_fields uh k0 k1 k2)]> (phys s))
                    (spec s) (count s)
                    (trace s ++ energy_events rank t fh uh k0 k1 k2 x0 x1 x2)).
Proof.
  intros Hne EX EK Ef Eh Eg. unfold energy_block.
  step run_unpack2_phys.
  step run_unpack2_spec.
  step run_read_spec.
  step run_read_spec.
  unfold jK_times, K, X. rewrite EK, EX.
  rewrite run_bind. simpl.
  step run_read_phys.
  step run_comm_allreduce.
  step run_read_spec.
  rewrite run_bind. simpl.
  step run_vector_backward.
  step run_read_phys.
  step run_get_phys.
  rewrite run_bind. simpl.
  step run_comm_allreduce.
  step run_read_phys.
  step run_get_phys.
  step run_read_phys.
  do 3 (rewrite run_bind; simpl).
  step run_comm_allreduce.
  unfold energy_events, gradu_fields, jKu, kinetic, strain, potential_local,
    linear_momentum_local, angular_momentum_local.
  destruct (decide (rank = 0)); simpl;
    rewrite ?run_bind, ?run_log; simpl;
    rewrite ?run_ret, ?run_log; simpl.
  all: rewrite <- !app_assoc; reflexivity.
Qed.

(** X9: the dictionaries handed to the file name the module's array [fu],
    while [update] transforms into the array it is given.  Called with
    another array [a], [update] transforms into [a] and writes to the file
    the module's [fu], which it has left as it was. *)
Theorem update_writes_module_fu (rank : Z) (t : F) (tstep : Z)
    (params : Params) (a : loc) (s : State) (xfu : nd Phys)
    (fhat uhat k0 k1 k2 : Spec) (x0 x1 x2 f0 u0 g0 g1 g2 : Phys) :
  a ≠ fu ->
  a ≠ gradu ->
  X = [x0; x1; x2] ->
  K = Stack [k0; k1; k2] ->
  phys s !! a = Some (Stack [f0; u0]) ->
  phys s !! fu = Some xfu ->
  spec s !! fu_hat = Some (Stack [fhat; uhat]) ->
  phys s !! gradu = Some (Stack [g0; g1; g2]) ->
  (rank = 0 -> plot_tstep params ≠ 0) ->
  (write_slice_tstep params).1 ≠ 0 ->
  (write_tstep params).1 ≠ 0 ->
  Compute_energy params ≠ 0 ->
  Forall (fun l => l = fu) (field_locs (write_slice_tstep params).2) ->
  Forall (fun l => l = fu) (field_locs (write_tstep params).2) ->
  exists (s' : State) (evs : list Event),
    update rank a fu_hat t tstep params s = Ok (tt, s')
    /\ trace s' = trace s ++ evs
    /\ Forall (fun x => x = xfu) (written_data evs)
    /\ phys s' !! fu = Some xfu
    /\ (any_now rank tstep params = true ->
        phys s' !! a = Some (transformed_fu fhat uhat)).
Proof.
  intros Ha1 Ha2 EX EK Ef Efu Eh Eg Hp Hs Hc He Fs Fc.
  assert (fu ≠ a) by done. assert (gradu ≠ a) by done.
  unfold K in EK. injection EK as EK. unfold X in EX.
  unfold any_now, plot_now, slice_now, checkpoint_now, energy_now.
  rewrite !bool_decide_decide.
  destruct (decide (rank = 0)) as [Hr|Hr];
  destruct (decide (tstep mod plot_tstep params = 0));
  destruct (decide (plot_tstep params > 0));
  destruct (decide (tstep mod (write_slice_tstep params).1 = 0));
  destruct (decide (tstep mod (write_tstep params).1 = 0));
  destruct (decide (tstep mod Compute_energy params = 0));
  simpl; eexists _, _;
  (split;
   [ unfold update, plot_due;
     repeat (first
       [ rewrite run_bind
       | rewrite run_ret
       | rewrite run_log
       | rewrite pymod_ok by auto
       | rewrite decide_True by assumption
       | rewrite decide_False by assumption
       | rewrite bool_decide_eq_true_2 by assumption
       | rewrite bool_decide_eq_false_2 by assumption
       | erewrite run_Function_backward by look
       | erewrite run_unpack2_phys by look
       | erewrite run_read_phys by look
       | erewrite (run_file_write _ _ fu) by look
       | erewrite run_energy_block_at by look
       | unfold item, X; rewrite EX ]; simpl);
     reflexivity
   | simpl; split; [rewrite <- ?app_assoc; reflexivity|] ]).
  all: unfold written_data, energy_events; simpl;
    rewrite ?app_nil_r, ?Forall_app;
    repeat split; try done;
    try (by apply Forall_fmap, Forall_true);
    try (by repeat constructor);
    try (repeat case_decide; simpl; by repeat constructor);
    try (intros _);
    repeat first [ rewrite lookup_insert_eq
                 | rewrite lookup_insert_ne by done ]; try done.
Qed.


Lemma mod_of_multiple (a b c : Z) :
  b ≠ 0 -> c ≠ 0 -> a mod (b * c) = 0 -> a mod b = 0.
Proof.
  intros Hb Hc H. apply Z.mod_divide; [done|].
  apply Z.mod_divide in H; [|lia].
  etrans; [|exact H]. by apply Z.divide_factor_l.
Qed.

(** X10: with the parameters [par], on a step that is not a multiple of 10
    [update] only ticks the timer: in any state it returns, with the store
    as it was, so that [fu] then still holds the transform of an earlier
    step. *)
Theorem update_par_idle (rank : Z) (a a_hat : loc) (t : F) (tstep : Z)
    (s : State) :
  tstep mod 10 ≠ 0 ->
  update rank a a_hat t tstep par s =
    Ok (tt, mkState (phys s) (spec s) (count s) (trace s ++ [EvTimer])).
Proof.
  intros H10.
  assert (H50 : tstep mod 50 ≠ 0)
    by (intros H; apply H10, (mod_of_multiple tstep 10 5); done).
  assert (H100 : tstep mod 100 ≠ 0)
    by (intros H; apply H10, (mod_of_multiple tstep 10 10); done).
  unfold update, plot_due. rewrite run_bind, run_log. simpl.
  destruct (decide (rank = 0));
    repeat (first
      [ rewrite run_bind
      | rewrite run_ret
      | rewrite pymod_ok by done
      | rewrite decide_False by assumption
      | rewrite bool_decide_eq_false_2 by assumption ]; simpl);
    reflexivity.
Qed.

(** X11: with the parameters [par] every step on which the energy is
    reported is also a checkpoint step, and every checkpoint step a slice
    step: on a multiple of 100 both dictionaries are written, after the one
    transform. *)
Theorem update_par_energy_step (rank : Z) (t : F) (tstep : Z) (s : State)
    (fhat uhat k0 k1 k2 : Spec) (x0 x1 x2 f0 u0 g0 g1 g2 : Phys) :
  X = [x0; x1; x2] ->
  K = Stack [k0; k1; k2] ->
  phys s !! fu = Some (Stack [f0; u0]) ->
  spec s !! fu_hat = Some (Stack [fhat; uhat]) ->
  phys s !! gradu = Some (Stack [g0; g1; g2]) ->
  tstep mod 100 = 0 ->
  exists (s' : State) (evs : list Event),
    update rank fu fu_hat t tstep par s = Ok (tt, s')
    /\ trace s' = trace s ++ evs
    /\ file_writes evs =
         [(tstep, (write_slice_tstep par).2); (tstep, (write_tstep par).2)]
    /\ count_transforms evs = 1%nat
    /\ length (diagnostics evs) = (if decide (rank = 0) then 6%nat else 5%nat).
Proof.
  intros EX EK Ef Eh Eg H100.
  assert (H50 : tstep mod 50 = 0)
    by (apply (mod_of_multiple tstep 50 2); done).
  assert (H10 : tstep mod 10 = 0)
    by (apply (mod_of_multiple tstep 10 10); done).
  eexists _, _. split; [by eapply update_par_run|].
  split; [reflexivity|]. repeat split; cases.
Qed.


(** X13: the first call of [NonlinearRHS] after module initialisation, on
    the module's [fu_hat] and [dfu]: since [f] starts at zero, the
    right-hand side of [u_t = f] is zero, and that of [f_t] is built from
    the transform of the initial condition. *)
Theorem first_NonlinearRHS (rank : Z) (x y z : Phys) :
  X = [x; y; z] ->
  let u_hat := forward T (eval_sym ue x y z) in
  exists s0 s1 : State,
    module_init rank empty_state = Ok (tt, s0)
    /\ NonlinearRHS fu fu_hat dfu s0 = Ok (dfu, s1)
    /\ spec s1 !! dfu =
         Some (Stack [sadd (forward T (pscal (fofZ gamma)
                                        (ppow (backward T u_hat) 3)))
                           (op_apply L u_hat);
                      szero])
    /\ spec s1 !! fu_hat = Some (Stack [szero; u_hat])
    /\ count s1 = 1.
Proof.
  intros EX u_hat.
  destruct (module_init_run rank x y z EX)
    as (s0 & E & _ & Hup & _ & Hd & Hh & Hc & _).
  eexists s0, _. split; [exact E|]. split.
  - by apply (NonlinearRHS_run fu fu_hat dfu s0 szero u_hat szero szero pzero).
  - simpl. rewrite Tp_is_T, lookup_insert_eq, lookup_insert_ne, Hc by done.
    done.
Qed.

(** X14: the main block hands [generate_xdmf] the name of the file it
    opened, "KleinGordon32.h5", and does so on rank 0 only. *)
Theorem main_generate_xdmf (rank : Z) (name : string) :
  GenerateXdmf name ∈ main rank
  <-> rank = 0 /\ name = h5_name file0 /\ name = "KleinGordon32.h5".
Proof.
  unfold main. rewrite elem_of_app. split.
  - intros [Hin|Hin].
    + repeat (apply elem_of_cons in Hin as [Hin|Hin]; [discriminate|]).
      by apply elem_of_nil in Hin.
    + destruct (decide (rank = 0)); [|by apply elem_of_nil in Hin].
      apply list_elem_of_singleton in Hin. by injection Hin as ->.
  - intros (-> & -> & _). right. simpl. by apply list_elem_of_singleton.
Qed.

End Further.

(** * The further properties on the one-point library *)

Section FurtherOnePoint.
#[local] Existing Instance one_point.

(** X1 on the one-point state, with [fu_hat] as input and output: the
    right-hand side of the zero state is zero. *)
Lemma NonlinearRHS_same_array_witness :
  exists s' : State,
    NonlinearRHS fu fu_hat fu_hat one_point_state = Ok (fu_hat, s')
    /\ phys s' !! up = Some (Scalar 0%Q).
Proof.
  destruct (NonlinearRHS_same_array (lib := one_point) fu fu_hat
              one_point_state (3%Q, 0%Q) (2%Q, 0%Q) 0%Q eq_refl eq_refl)
    as (s' & E & _ & Hup).
  exists s'. split; [exact E | exact Hup].
Defined.


(** X3 on the one-point state: four calls. *)
Lemma NonlinearRHS_repeated_witness :
  exists s' : State,
    calls 4 (NonlinearRHS fu fu_hat dfu) one_point_state = Ok (tt, s')
    /\ count s' = 4.
Proof.
  destruct (NonlinearRHS_repeated (lib := one_point) 3 fu fu_hat dfu
              one_point_state (3%Q, 0%Q) (2%Q, 0%Q) (7%Q, 7%Q) (9%Q, 9%Q) 0%Q)
    as (s1 & s' & _ & E & _ & _ & Hc);
    [done | reflexivity | reflexivity | reflexivity |].
  exists s'. split; [exact E | exact Hc].
Defined.

(** X4 on the one-point state, at step 50 on rank 1. *)
Lemma update_store_effects_witness :
  exists s' : State,
    update 1 fu fu_hat 0%Q 50 par one_point_state = Ok (tt, s')
    /\ spec s' = spec one_point_state
    /\ phys s' !! gradu = Some (Stack [0%Q; 0%Q; 0%Q]).
Proof.
  destruct (update_store_effects (lib := one_point) 1 0%Q 50 par
              one_point_state
              (3%Q, 0%Q) (2%Q, 0%Q) (0%Q, 0%Q) (0%Q, 0%Q) (0%Q, 0%Q)
              0%Q 0%Q 0%Q 0%Q 1%Q 0%Q 0%Q 0%Q
              one_point_X one_point_K eq_refl eq_refl eq_refl)
    as (s' & E & Hs & _ & _ & Hg & _);
    [done | done | done | done | repeat constructor | repeat constructor |].
  exists s'. split; [exact E|]. split; [exact Hs | exact Hg].
Defined.

(** X5 on the one-point state, at step 100 on rank 0 with a negative
    [plot_tstep]: no plot. *)
Lemma update_plot_guard_witness :
  exists (s' : State) (evs : list Event),
    update 0 fu fu_hat 0%Q 100 (par_with 10 50 100 (-100)) one_point_state
      = Ok (tt, s')
    /\ trace s' = evs
    /\ plotted_data evs = [].
Proof.
  destruct (update_plot_guard (lib := one_point) 0 0%Q 100
              (par_with 10 50 100 (-100)) one_point_state
              (3%Q, 0%Q) (2%Q, 0%Q) (0%Q, 0%Q) (0%Q, 0%Q) (0%Q, 0%Q)
              0%Q 0%Q 0%Q 0%Q 1%Q 0%Q 0%Q 0%Q
              one_point_X one_point_K eq_refl eq_refl eq_refl)
    as (s' & evs & E & Ht & Hp);
    [done | done | done | done | repeat constructor | repeat constructor |].
  exists s', evs. split; [exact E|]. split; [exact Ht | exact Hp].
Defined.

(** X6 on the one-point state, with [plot_tstep = 0]. *)
Lemma update_zero_plot_tstep_witness :
  update 0 fu fu_hat 0%Q 7 (par_with 10 50 100 0) one_point_state
  = Raise ZeroDivisionError.
Proof.
  apply (update_zero_plot_tstep (lib := one_point) fu fu_hat 0%Q 7
           (par_with 10 50 100 0) one_point_state). reflexivity.
Defined.

(** X7 on the one-point state, with [Compute_energy = 0]. *)
Lemma update_zero_period_witness :
  update 1 fu fu_hat 0%Q 7 (par_with 10 50 0 100) one_point_state
  = Raise ZeroDivisionError.
Proof.
  apply (update_zero_period (lib := one_point) 1 0%Q 7
           (par_with 10 50 0 100) one_point_state
           (3%Q, 0%Q) (2%Q, 0%Q) (0%Q, 0%Q) (0%Q, 0%Q) (0%Q, 0%Q)
           0%Q 0%Q 0%Q 0%Q 1%Q 0%Q 0%Q 0%Q
           one_point_X one_point_K eq_refl eq_refl eq_refl);
    [done | repeat constructor | repeat constructor | right; right; reflexivity].
Defined.

(** X8 on the one-point state, at step 50 on rank 1. *)
Lemma update_after_NonlinearRHS_witness :
  exists (s1 s2 : State),
    NonlinearRHS fu fu_hat dfu one_point_state = Ok (dfu, s1)
    /\ update 1 fu fu_hat 0%Q 50 par s1 = Ok (tt, s2).
Proof.
  destruct (update_after_NonlinearRHS (lib := one_point) 1 0%Q 50 par fu dfu
              one_point_state
              (3%Q, 0%Q) (2%Q, 0%Q) (7%Q, 7%Q) (9%Q, 9%Q)
              (0%Q, 0%Q) (0%Q, 0%Q) (0%Q, 0%Q)
              0%Q 0%Q 0%Q 0%Q 1%Q 0%Q 0%Q 0%Q 0%Q
              one_point_X one_point_K eq_refl eq_refl eq_refl)
    as (s0 & s1 & s2 & evs & _ & _ & E1 & E2 & _);
    [done | done | done | done | repeat constructor | repeat constructor
    | done | reflexivity | reflexivity |].
  exists s1, s2. split; [exact E1 | exact E2].
Defined.

(** X9 on the one-point state with the other array, at step 50 on rank 1:
    the file gets the module's [fu] as it was, [0, 1]. *)
Lemma update_writes_module_fu_witness :
  exists (s' : State) (evs : list Event),
    update 1 other_array fu_hat 0%Q 50 par one_point_state_other = Ok (tt, s')
    /\ trace s' = evs
    /\ Forall (fun x => x = Stack [0%Q; 1%Q]) (written_data evs)
    /\ phys s' !! other_array = Some (Stack [3%Q; 2%Q]).
Proof.
  destruct (update_writes_module_fu (lib := one_point) 1 0%Q 50 par
              other_array one_point_state_other (Stack [0%Q; 1%Q])
              (3%Q, 0%Q) (2%Q, 0%Q) (0%Q, 0%Q) (0%Q, 0%Q) (0%Q, 0%Q)
              0%Q 0%Q 0%Q 5%Q 5%Q 0%Q 0%Q 0%Q)
    as (s' & evs & E & Ht & Hw & _ & Ha);
    [done | done | exact one_point_X | exact one_point_K
    | reflexivity | reflexivity | reflexivity | reflexivity
    | done | done | done | done | repeat constructor | repeat constructor |].
  exists s', evs. split; [exact E|]. split; [exact Ht|].
  split; [exact Hw | exact (Ha eq_refl)].
Defined.

(** X10 on the one-point state, at step 7. *)
Lemma update_par_idle_witness :
  exists s' : State,
    update 0 fu fu_hat 0%Q 7 par one_point_state = Ok (tt, s')
    /\ trace s' = [EvTimer].
Proof.
  eexists. split.
  - apply (update_par_idle (lib := one_point) 0 fu fu_hat 0%Q 7
             one_point_state). done.
  - reflexivity.
Defined.

(** X11 on the one-point state, at step 200 on rank 0. *)
Lemma update_par_energy_step_witness :
  exists (s' : State) (evs : list Event),
    update 0 fu fu_hat 0%Q 200 par one_point_state = Ok (tt, s')
    /\ trace s' = evs
    /\ count_transforms evs = 1%nat.
Proof.
  destruct (update_par_energy_step (lib := one_point) 0 0%Q 200
              one_point_state
              (3%Q, 0%Q) (2%Q, 0%Q) (0%Q, 0%Q) (0%Q, 0%Q) (0%Q, 0%Q)
              0%Q 0%Q 0%Q 0%Q 1%Q 0%Q 0%Q 0%Q
              one_point_X one_point_K eq_refl eq_refl eq_refl eq_refl)
    as (s' & evs & E & Ht & _ & Hc & _).
  exists s', evs. split; [exact E|]. split; [exact Ht | exact Hc].
Defined.


(** X13 on the one-point library: the first right-hand side for [u] is
    zero. *)
Lemma first_NonlinearRHS_witness :
  exists s0 s1 : State,
    module_init 0 empty_state = Ok (tt, s0)
    /\ NonlinearRHS fu fu_hat dfu s0 = Ok (dfu, s1)
    /\ count s1 = 1.
Proof.
  destruct (first_NonlinearRHS (lib := one_point) 0 0%Q 0%Q 0%Q one_point_X)
    as (s0 & s1 & E0 & E1 & _ & _ & Hc).
  exists s0, s1. split; [exact E0|]. split; [exact E1 | exact Hc].
Defined.

End FurtherOnePoint.
